(** * Benten: the workflow model, the command console and the tabbed shell

    A shallow embedding of
      - [benten/models/workflow.py]       (module [WorkflowModel]),
      - [benten/gui/view/commandwidget.py] (module [Console]),
      - [benten/gui/bentenmainwidget.py]   (module [MainWidget]),
    over a small model of the Python values these files handle
    (module [Py]).  Python exceptions are the [Raise] case of the error
    monad [result]; ordered dictionaries are association lists in
    insertion order. *)

From Stdlib Require Import String Ascii List ZArith Lia Bool.
Import ListNotations.
Set Warnings "-register-all".
Open Scope string_scope.
Open Scope list_scope.

(* ===================================================================== *)
(** ** Python values, exceptions and the operations the source uses      *)
(* ===================================================================== *)

Module Py.

(** Exceptions, by class.  [str(e)] is the message. *)
Inductive exn : Type :=
| WFConnectionError (msg : string)
| ValueError (msg : string)
| TypeError (msg : string)
| KeyError (msg : string)
| AttributeError (msg : string)
| FileNotFoundError (msg : string)
| RuntimeError (msg : string)
| OtherError (msg : string)
| OutsideModel (msg : string).
(** [OutsideModel] marks the few places where Python would go on with a
    value this model has no representation for (an identifier that is not
    a string, a method of a class that is missing from the sources and not
    described); no theorem below concludes anything from it. *)

Definition exn_str (e : exn) : string :=
  match e with
  | WFConnectionError m | ValueError m | TypeError m | KeyError m
  | AttributeError m | FileNotFoundError m | RuntimeError m
  | OtherError m | OutsideModel m => m
  end.

Inductive result (A : Type) : Type :=
| Ok (a : A)
| Raise (e : exn).
Arguments Ok {A} a.
Arguments Raise {A} e.

Definition bind {A B} (r : result A) (k : A -> result B) : result B :=
  match r with
  | Ok a => k a
  | Raise e => Raise e
  end.

Declare Scope py_scope.
Delimit Scope py_scope with py.
Notation "x <- c ;; k" := (bind c (fun x => k))
  (at level 61, c at next level, right associativity) : py_scope.
Notation "' p <- c ;; k" := (bind c (fun x => match x with p => k end))
  (at level 61, p pattern, c at next level, right associativity) : py_scope.
Open Scope py_scope.

Fixpoint mapM {A B} (f : A -> result B) (l : list A) : result (list B) :=
  match l with
  | [] => Ok []
  | a :: l' => b <- f a ;; bs <- mapM f l' ;; Ok (b :: bs)
  end.

(** Documents as Python sees them.  [VList] and [VDict] are the builtin
    [list] and [dict] (a [dict] keeps insertion order; keys are strings). *)
Inductive value : Type :=
| VNone
| VBool (b : bool)
| VInt (z : Z)
| VStr (s : string)
| VList (l : list value)
| VDict (d : list (string * value))
| CWLMap (start_line end_line : Z) (items : list (string * value))
| CWLList (start_line end_line : Z) (plain_list : bool) (obj : list value).
(** Modelled from the spec: [CWLMap] and [CWLList], the line-tracked
    mapping and sequence nodes of [benten.editing.listormap], which is not
    among the sources.  "Every mapping node and every sequence node
    additionally exposes its start line and end line", "sequence nodes can
    report whether they are a plain list of scalars", and "iteration over
    such a node must yield (id, value) pairs uniformly regardless of which
    form was used".  They are classes of their own, neither [list] nor
    [dict]: the source tests [isinstance(_, CWLList)] next to
    [isinstance(_, list)] and reads the wrapped list as [.obj]. *)

(** *** Strings *)

Fixpoint str_prefix (p s : string) : bool :=
  match p, s with
  | EmptyString, _ => true
  | String a p', String b s' => Ascii.eqb a b && str_prefix p' s'
  | String _ _, EmptyString => false
  end.

(** [needle in hay] on two [str]. *)
Fixpoint str_contains (needle hay : string) : bool :=
  str_prefix needle hay ||
  match hay with
  | EmptyString => false
  | String _ hay' => str_contains needle hay'
  end.

(** [s.split(c)] for a one-character separator. *)
Fixpoint str_split (c : ascii) (s : string) : list string :=
  match s with
  | EmptyString => [EmptyString]
  | String a s' =>
      if Ascii.eqb a c then EmptyString :: str_split c s'
      else match str_split c s' with
           | [] => [String a EmptyString]
           | w :: ws => String a w :: ws
           end
  end.

(** [sep.join(l)] *)
Fixpoint str_join (sep : string) (l : list string) : string :=
  match l with
  | [] => ""
  | [x] => x
  | x :: l' => x ++ sep ++ str_join sep l'
  end.

Definition hex_digit (n : nat) : ascii :=
  match n with
  | 0 => "0" | 1 => "1" | 2 => "2" | 3 => "3" | 4 => "4" | 5 => "5"
  | 6 => "6" | 7 => "7" | 8 => "8" | 9 => "9" | 10 => "a" | 11 => "b"
  | 12 => "c" | 13 => "d" | 14 => "e" | _ => "f"
  end%char.

(** [repr(s)] for a [str]: single quotes unless the text has a single
    quote and no double quote; backslash, the chosen quote, tab, newline
    and carriage return escaped; other control characters as [\xNN].
    Characters above 127 are kept (they are taken to be printable text). *)
Definition repr_char (q : ascii) (a : ascii) : string :=
  let n := nat_of_ascii a in
  if Ascii.eqb a "\"%char then "\\"
  else if Ascii.eqb a q then String "\"%char (String q "")
  else if Nat.eqb n 9 then "\t"
  else if Nat.eqb n 10 then "\n"
  else if Nat.eqb n 13 then "\r"
  else if (n <? 32)%nat || Nat.eqb n 127
       then String "\"%char (String "x"%char
              (String (hex_digit (n / 16)) (String (hex_digit (n mod 16)) "")))
  else String a "".

Fixpoint repr_body (q : ascii) (s : string) : string :=
  match s with
  | EmptyString => ""
  | String a s' => repr_char q a ++ repr_body q s'
  end.

Definition squote : ascii := "'"%char.
Definition dquote : ascii := ascii_of_nat 34.

Definition repr_str (s : string) : string :=
  let q := if str_contains (String squote "") s
              && negb (str_contains (String dquote "") s)
           then dquote else squote in
  String q (repr_body q s ++ String q "").

(** [repr] of a list of [str]: [['a', 'b']]. *)
Definition repr_str_list (l : list string) : string :=
  "[" ++ str_join ", " (map repr_str l) ++ "]".

(** *** Association lists as ordered dictionaries *)

Section Assoc.
Context {V : Type}.

Fixpoint assoc_get (k : string) (d : list (string * V)) : option V :=
  match d with
  | [] => None
  | (k', v) :: d' => if String.eqb k' k then Some v else assoc_get k d'
  end.

Definition assoc_mem (k : string) (d : list (string * V)) : bool :=
  match assoc_get k d with Some _ => true | None => false end.

(** [d[k] = v]: an existing key keeps its place, a new one goes last. *)
Fixpoint assoc_set (k : string) (v : V) (d : list (string * V))
  : list (string * V) :=
  match d with
  | [] => [(k, v)]
  | (k', v') :: d' =>
      if String.eqb k' k then (k', v) :: d' else (k', v') :: assoc_set k v d'
  end.

(** [OrderedDict(pairs)] / [dict(pairs)] *)
Definition assoc_of_pairs (l : list (string * V)) : list (string * V) :=
  fold_left (fun d kv => assoc_set (fst kv) (snd kv) d) l [].
End Assoc.

(** *** Operations on values *)

Definition type_name (v : value) : string :=
  match v with
  | VNone => "NoneType" | VBool _ => "bool" | VInt _ => "int"
  | VStr _ => "str" | VList _ => "list" | VDict _ => "dict"
  | CWLMap _ _ _ => "CWLMap" | CWLList _ _ _ _ => "CWLList"
  end.

Definition is_str (v : value) (s : string) : bool :=
  match v with VStr s' => String.eqb s' s | _ => false end.

(** [v[key]] for a string key. *)
Definition getitem (v : value) (key : string) : result value :=
  match v with
  | VDict d | CWLMap _ _ d =>
      match assoc_get key d with
      | Some x => Ok x
      | None => Raise (KeyError (repr_str key))
      end
  | CWLList _ _ _ obj =>
      (* Modelled from the spec: a sequence node is addressed by the id
         its iteration pairs the element with. *)
      match find (fun e => match e with
                           | VDict d | CWLMap _ _ d =>
                               match assoc_get "id" d with
                               | Some i => is_str i key
                               | None => false
                               end
                           | _ => false
                           end) obj with
      | Some x => Ok x
      | None => Raise (KeyError (repr_str key))
      end
  | VList _ => Raise (TypeError "list indices must be integers or slices, not str")
  | VStr _ => Raise (TypeError "string indices must be integers")
  | _ => Raise (TypeError ("'" ++ type_name v ++ "' object is not subscriptable"))
  end.

(** [key in v] for a string key. *)
Definition contains (key : string) (v : value) : result bool :=
  match v with
  | VDict d | CWLMap _ _ d => Ok (assoc_mem key d)
  | CWLList _ _ _ _ =>
      match getitem v key with Ok _ => Ok true | Raise _ => Ok false end
  | VStr s => Ok (str_contains key s)
  | VList l => Ok (existsb (fun e => is_str e key) l)
  | _ => Raise (TypeError ("argument of type '" ++ type_name v ++ "' is not iterable"))
  end.

(** [v.get(key, default)] *)
Definition get (v : value) (key : string) (default : value) : result value :=
  match v with
  | VDict d | CWLMap _ _ d =>
      match assoc_get key d with
      | Some x => Ok x
      | None => Ok default
      end
  | CWLList _ _ _ _ => Raise (OutsideModel "CWLList.get")
  | _ => Raise (AttributeError ("'" ++ type_name v ++ "' object has no attribute 'get'"))
  end.

(** [(v.start_line, v.end_line)] *)
Definition lines_of (v : value) : result (Z * Z) :=
  match v with
  | CWLMap s e _ | CWLList s e _ _ => Ok (s, e)
  | _ => Raise (AttributeError ("'" ++ type_name v ++ "' object has no attribute 'start_line'"))
  end.

Definition is_cwl_node (v : value) : bool :=
  match v with CWLMap _ _ _ | CWLList _ _ _ _ => true | _ => false end.

(** The [ValueError] of an unpacking into two names that found [n]
    values. *)
Definition unpack_error (n : nat) : exn :=
  match n with
  | 0%nat => ValueError "not enough values to unpack (expected 2, got 0)"
  | 1%nat => ValueError "not enough values to unpack (expected 2, got 1)"
  | _ => ValueError "too many values to unpack (expected 2)"
  end.

(** [k, v = x]: unpacking one iterated element into two names. *)
Definition unpack2 (x : value) : result (value * value) :=
  match x with
  | VStr (String a (String b EmptyString)) =>
      Ok (VStr (String a ""), VStr (String b ""))
  | VList [a; b] => Ok (a, b)
  | VDict [(k1, _); (k2, _)] => Ok (VStr k1, VStr k2)
  | CWLMap _ _ [_; _] | CWLList _ _ _ [_; _] =>
      Raise (OutsideModel "a pair bound to an identifier")
  | VStr s => Raise (unpack_error (String.length s))
  | VList l | CWLList _ _ _ l => Raise (unpack_error (length l))
  | VDict d | CWLMap _ _ d => Raise (unpack_error (length d))
  | _ => Raise (TypeError ("cannot unpack non-iterable " ++ type_name x ++ " object"))
  end.

Fixpoint chars_of (s : string) : list value :=
  match s with
  | EmptyString => []
  | String a s' => VStr (String a "") :: chars_of s'
  end.

(** [for k, v in obj]: what each turn of the loop binds, in order.  A turn
    whose element does not unpack raises when the loop reaches it, after
    the bodies of the earlier turns have run. *)
Definition pairs_of (obj : value) : result (list (result (value * value))) :=
  match obj with
  | CWLMap _ _ items => Ok (map (fun kv => Ok (VStr (fst kv), snd kv)) items)
  | CWLList _ _ _ elems =>
      Ok (map (fun e => i <- getitem e "id" ;; Ok (i, e)) elems)
  | VDict d => Ok (map (fun kv => unpack2 (VStr (fst kv))) d)
  | VList l => Ok (map unpack2 l)
  | VStr s => Ok (map unpack2 (chars_of s))
  | _ => Raise (TypeError ("'" ++ type_name obj ++ "' object is not iterable"))
  end.

(** The same iteration run to its end by a comprehension whose body
    cannot raise. *)
Definition iter_pairs (obj : value) : result (list (value * value)) :=
  l <- pairs_of obj ;; mapM (fun r => r) l.

(** A [for k, v in ...] loop with a body that updates [S] and may raise. *)
Fixpoint for_pairs {S : Type} (turns : list (result (value * value)))
    (body : S -> value * value -> result S) (s : S) : result S :=
  match turns with
  | [] => Ok s
  | r :: rest => kv <- r ;; s' <- body s kv ;; for_pairs rest body s'
  end.

Fixpoint foldM {S A : Type} (body : S -> A -> result S) (l : list A) (s : S)
  : result S :=
  match l with
  | [] => Ok s
  | a :: rest => s' <- body s a ;; foldM body rest s'
  end.

(** Identifiers are [str] in every annotation of the source. *)
Definition as_id (v : value) : result string :=
  match v with
  | VStr s => Ok s
  | _ => Raise (OutsideModel "identifier that is not a str")
  end.

End Py.

(* ===================================================================== *)
(** ** benten/models/workflow.py                                         *)
(* ===================================================================== *)

Module WorkflowModel.
Import Py.

(** [iter_lom(obj)]: the pairs the generator yields, or the exception the
    iteration stops with. *)
Definition iter_lom (obj : value) : result (list (value * value)) :=
  match obj with
  | VList l => mapM (fun e => i <- getitem e "id" ;; Ok (i, e)) l
  | VDict d => Ok (map (fun kv => (VStr (fst kv), snd kv)) d)
  | _ => iter_pairs obj
  end.

(** [iter_scalar_or_list(obj)] *)
Definition iter_scalar_or_list (obj : value) : list value :=
  match obj with
  | CWLList _ _ _ l => l
  | _ => [obj]
  end.

Definition line_range : Type := (Z * Z)%type.

Record Port : Type := mkPort {
  node_id : option string;
  port_id : string;
  line : option line_range
}.

Definition opt_str_eqb (a b : option string) : bool :=
  match a, b with
  | None, None => true
  | Some x, Some y => String.eqb x y
  | _, _ => false
  end.

(** [Port.__eq__] *)
Definition Port_eq (self other : Port) : bool :=
  opt_str_eqb (node_id self) (node_id other)
  && String.eqb (port_id self) (port_id other).

(** [Port.__repr__] *)
Definition Port_repr (self : Port) : string :=
  match node_id self with
  | Some n => (n ++ "." ++ port_id self)%string
  | None => port_id self
  end.

(** The value a step's [sub_workflow] attribute holds.  The source stores
    an instance [InvalidSub()] in one place and the class object
    [InvalidSub] in another; both are kept apart here. *)
Inductive SubWorkflow : Type :=
| InvalidSub_instance
| InvalidSub_class
| InlineSub (path : string) (inline_path : list string)
| ExternalSub (path : string).

(** [isinstance(sub, InvalidSub)] *)
Definition isinstance_InvalidSub (sub : SubWorkflow) : bool :=
  match sub with InvalidSub_instance => true | _ => false end.

(** A step's port maps are a plain [dict] on one path and an
    [OrderedDict] on the other; [str(d.keys())] tells them apart. *)
Inductive dict_kind : Type := PlainDict | OrderedDict.

Record PortMap : Type := mkPortMap {
  kind : dict_kind;
  entries : list (string * Port)
}.

Definition keys_str (m : PortMap) : string :=
  (match kind m with
   | PlainDict => "dict_keys("
   | OrderedDict => "odict_keys("
   end ++ repr_str_list (map fst (entries m)) ++ ")")%string.

Record Step : Type := mkStep {
  step_line : line_range;
  id : string;
  available_sinks : PortMap;
  available_sources : PortMap;
  sub_workflow : SubWorkflow
}.

(** [Step.__repr__] *)
Definition Step_repr (self : Step) : string :=
  (keys_str (available_sinks self) ++ "->" ++ id self ++ "->"
   ++ keys_str (available_sources self))%string.

(** Modelled from the spec: [CwlDoc] of [benten.editing.cwldoc], "parsed
    line-tracked dictionary, resolved filesystem path, and - if this
    CwlDoc represents a node nested inside a parent file - the inline
    path locating it". *)
Record CwlDoc : Type := mkCwlDoc {
  cwl_dict : value;
  path : string;
  inline_path : option (list string)
}.

(** The file system and the parser as [Step.from_doc] uses them:
    [resolve root run] is [pathlib.Path(root.parent, run).resolve()],
    [as_uri p] is [p.as_uri()], and [read_cwl p] is
    [parse_cwl_to_dict(p.open("r").read())], which raises
    [FileNotFoundError] when there is no file at [p]. *)
Record FileSystem : Type := mkFileSystem {
  resolve : string -> string -> string;
  as_uri : string -> string;
  read_cwl : string -> result value
}.

Definition ports_of (step_id : string) (pairs : list (value * value))
  : result (list (string * Port)) :=
  l <- mapM (fun kv => k <- as_id (fst kv) ;;
                       Ok (k, mkPort (Some step_id) k None)) pairs ;;
  Ok (assoc_of_pairs l).

(** [OrderedDict([(k, Port(node_id=step_id, port_id=k))
                  for k, v in iter_lom(sub_process.get(section, {}))])] *)
Definition run_target_ports (step_id : string) (sub_process : value)
    (section : string) : result (list (string * Port)) :=
  sec <- get sub_process section (VDict []) ;;
  pairs <- iter_lom sec ;;
  ports_of step_id pairs.

(** [Step.from_doc]; the second component is [wf_error_list] after the
    call (the source appends to the caller's list in place). *)
Definition from_doc (fs : FileSystem) (step_id : string) (ln : line_range)
    (cwl_doc : CwlDoc) (wf_error_list : list string)
  : result (Step * list string) :=
  steps_sec <- getitem (cwl_dict cwl_doc) "steps" ;;
  step_doc <- getitem steps_sec step_id ;;
  let root := path cwl_doc in
  no_run <- match step_doc with
            | VNone => Ok true
            | _ => b <- contains "run" step_doc ;; Ok (negb b)
            end ;;
  if (no_run : bool) then
    Ok (mkStep ln step_id (mkPortMap PlainDict []) (mkPortMap PlainDict [])
               InvalidSub_instance,
        wf_error_list ++ [("step " ++ step_id ++ " has no run field")%string])
  else
    run <- getitem step_doc "run" ;;
    ' (sub_process, sub, errs) <-
      match run with
      | VStr r =>
          let sub_p_path := resolve fs root r in
          match read_cwl fs sub_p_path with
          | Ok sp => Ok (sp, ExternalSub sub_p_path, wf_error_list)
          | Raise (FileNotFoundError _) =>
              Ok (VDict [], InvalidSub_class,
                  wf_error_list ++
                  [("Could not find sub workflow: " ++ r ++ " (resolved to "
                    ++ as_uri fs sub_p_path ++ ")")%string])
          | Raise e => Raise e
          end
      | _ =>
          Ok (run,
              InlineSub root
                (match inline_path cwl_doc with
                 | Some ip => ip
                 | None => []
                 end ++ [step_id]),
              wf_error_list)
      end ;;
    sinks <- run_target_ports step_id sub_process "inputs" ;;
    sources <- run_target_ports step_id sub_process "outputs" ;;
    Ok (mkStep ln step_id (mkPortMap OrderedDict sinks)
               (mkPortMap OrderedDict sources) sub, errs).

Record Connection : Type := mkConnection {
  conn_line : option line_range;
  src : Port;
  dst : Port
}.

(** [Connection.__eq__] *)
Definition Connection_eq (self other : Connection) : bool :=
  Port_eq (src self) (src other) && Port_eq (dst self) (dst other).

Record Workflow : Type := mkWorkflow {
  wf_doc : CwlDoc;
  problems_with_wf : list string;
  section_lines : list (string * line_range);
  inputs : list (string * Port);
  outputs : list (string * Port);
  steps : list (string * Step);
  connections : list Connection
}.

(** [Workflow._parse_ports] *)
Definition _parse_ports (obj : value) : result (list (string * Port)) :=
  def_ln <- (if is_cwl_node obj then l <- lines_of obj ;; Ok (Some l)
             else Ok None) ;;
  pairs <- iter_pairs obj ;;
  l <- mapM (fun kv =>
               k <- as_id (fst kv) ;;
               v_ln <- (if is_cwl_node (snd kv)
                        then l <- lines_of (snd kv) ;; Ok (Some l)
                        else Ok def_ln) ;;
               Ok (k, mkPort None k v_ln)) pairs ;;
  Ok (assoc_of_pairs l).

Section Sources.
(** The two attributes of [self] that source resolution reads. *)
Variable wf_inputs : list (string * Port).
Variable wf_steps : list (string * Step).

(** [Workflow._get_step_source]; [_src] is a [str] here. *)
Definition _get_step_source (_src : string) : result Port :=
  match str_split "/" _src with
  | [src_step_id; src_port_id] =>
      match assoc_get src_step_id wf_steps with
      | None =>
          Raise (WFConnectionError ("No such source step " ++ src_step_id))
      | Some st =>
          match assoc_get src_port_id (entries (available_sources st)) with
          | None =>
              Raise (WFConnectionError
                       ("No such source port " ++ src_step_id ++ "."
                        ++ src_port_id))
          | Some p => Ok p
          end
      end
  | [] | [_] =>
      Raise (ValueError "not enough values to unpack (expected 2, got 1)")
  | _ => Raise (ValueError "too many values to unpack (expected 2)")
  end.

(** [Workflow._get_source] *)
Definition _get_source (_src : value) : result Port :=
  match _src with
  | VNone => Raise (WFConnectionError "No source specified")
  | VStr s =>
      if String.eqb s "" then Raise (WFConnectionError "No source specified")
      else if str_contains "/" s then _get_step_source s
      else match assoc_get s wf_inputs with
           | None => Raise (WFConnectionError ("No such WF input " ++ s))
           | Some p => Ok p
           end
  | VBool _ | VInt _ =>
      Raise (TypeError ("argument of type '" ++ type_name _src
                        ++ "' is not iterable"))
  | VList l =>
      if existsb (fun e => is_str e "/") l
      then Raise (AttributeError "'list' object has no attribute 'split'")
      else Raise (TypeError "unhashable type: 'list'")
  | VDict d =>
      if assoc_mem "/" d
      then Raise (AttributeError "'dict' object has no attribute 'split'")
      else Raise (TypeError "unhashable type: 'dict'")
  | CWLMap _ _ _ | CWLList _ _ _ _ =>
      Raise (OutsideModel "a line-tracked node used as a source")
  end.

(** The loop [for _src in iter_scalar_or_list(...)] with its
    [try ... except WFConnectionError] body.  [mk_line] is the line
    range expression of the [Connection(...)] call, evaluated only after
    the source has resolved; [who] is the prefix of the problem text. *)
Fixpoint connect_sources (srcs : list value) (sink : Port)
    (mk_line : result line_range) (who : string)
    (acc : list Connection * list string)
  : result (list Connection * list string) :=
  match srcs with
  | [] => Ok acc
  | _src :: rest =>
      match (source <- _get_source _src ;;
             l <- mk_line ;;
             Ok (mkConnection (Some l) source sink)) with
      | Ok c =>
          connect_sources rest sink mk_line who (fst acc ++ [c], snd acc)
      | Raise (WFConnectionError e) =>
          connect_sources rest sink mk_line who
            (fst acc, snd acc ++ [(who ++ ": " ++ e)%string])
      | Raise e => Raise e
      end
  end.
End Sources.

(** The body of [for step_sink_id, port_doc in step_doc.get("in", {})]. *)
Definition connect_step_port (wf_inputs : list (string * Port))
    (wf_steps : list (string * Step)) (step_doc : value) (this_step : Step)
    (acc : list Connection * list string) (kv : value * value)
  : result (list Connection * list string) :=
  step_sink_id <- as_id (fst kv) ;;
  let port_doc := snd kv in
  let who := (Step_repr this_step ++ "." ++ step_sink_id)%string in
  match assoc_get step_sink_id (entries (available_sinks this_step)) with
  | None =>
      Ok (fst acc,
          snd acc ++ [("No such sink: " ++ id this_step ++ "."
                       ++ step_sink_id)%string])
  | Some sink =>
      let full_form :=
        b <- contains "source" port_doc ;;
        if (b : bool) then
          port_src <- getitem port_doc "source" ;;
          l <- lines_of port_doc ;;
          connect_sources wf_inputs wf_steps (iter_scalar_or_list port_src)
            sink (Ok l) who acc
        else Ok acc in
      let short_form :=
        in_sec <- getitem step_doc "in" ;;
        l <- lines_of in_sec ;;
        connect_sources wf_inputs wf_steps (iter_scalar_or_list port_doc)
          sink (Ok l) who acc in
      match port_doc with
      | VStr _ | VList _ | CWLList _ _ true _ => short_form
      | CWLMap _ _ _ | CWLList _ _ false _ => full_form
      | _ =>
          Ok (fst acc,
              snd acc ++ [("Can't parse source for " ++ Step_repr this_step
                           ++ "." ++ step_sink_id)%string])
      end
  end.

(** The body of [for step_id, step_doc in cwl_dict.get("steps", {})]. *)
Definition connect_step (wf_inputs : list (string * Port))
    (wf_steps : list (string * Step))
    (acc : list Connection * list string) (kv : value * value)
  : result (list Connection * list string) :=
  step_id <- as_id (fst kv) ;;
  let step_doc := snd kv in
  match step_doc with
  | CWLMap _ _ _ =>
      this_step <- match assoc_get step_id wf_steps with
                   | Some st => Ok st
                   | None => Raise (KeyError (repr_str step_id))
                   end ;;
      in_sec <- get step_doc "in" (VDict []) ;;
      turns <- pairs_of in_sec ;;
      for_pairs turns (connect_step_port wf_inputs wf_steps step_doc this_step)
        acc
  | _ =>
      Ok (fst acc, snd acc ++ [("Invalid step: " ++ step_id)%string])
  end.

(** The body of [for out_id, out_doc in cwl_dict.get("outputs", {})]. *)
Definition connect_output (wf_inputs : list (string * Port))
    (wf_steps : list (string * Step)) (wf_outputs : list (string * Port))
    (acc : list Connection * list string) (kv : value * value)
  : result (list Connection * list string) :=
  out_id <- as_id (fst kv) ;;
  let out_doc := snd kv in
  sink <- match assoc_get out_id wf_outputs with
          | Some p => Ok p
          | None => Raise (KeyError (repr_str out_id))
          end ;;
  b <- contains "outputSource" out_doc ;;
  if (b : bool) then
    out_src <- getitem out_doc "outputSource" ;;
    connect_sources wf_inputs wf_steps (iter_scalar_or_list out_src) sink
      (lines_of out_doc) (port_id sink) acc
  else Ok acc.

(** [Workflow._list_connections]: the connections returned and
    [problems_with_wf] after the call. *)
Definition _list_connections (doc : CwlDoc) (wf_inputs : list (string * Port))
    (wf_outputs : list (string * Port)) (wf_steps : list (string * Step))
    (problems : list string)
  : result (list Connection * list string) :=
  steps_sec <- get (cwl_dict doc) "steps" (VDict []) ;;
  step_turns <- pairs_of steps_sec ;;
  acc <- for_pairs step_turns (connect_step wf_inputs wf_steps) ([], problems) ;;
  outs_sec <- get (cwl_dict doc) "outputs" (VDict []) ;;
  out_turns <- pairs_of outs_sec ;;
  for_pairs out_turns (connect_output wf_inputs wf_steps wf_outputs) acc.

Definition required_sections : list string :=
  ["cwlVersion"; "class"; "inputs"; "outputs"; "steps"].

(** The body of [for sec in required_sections]. *)
Definition check_section (d : value)
    (st : list string * list (string * line_range)) (sec : string)
  : result (list string * list (string * line_range)) :=
  b <- contains sec d ;;
  if negb b then Ok (fst st ++ [("'" ++ sec ++ "' missing")%string], snd st)
  else if String.eqb sec "inputs" || String.eqb sec "outputs" then
    v <- getitem d sec ;;
    l <- lines_of v ;;
    Ok (fst st, assoc_set sec l (snd st))
  else Ok st.

(** The body of the generator that fills [self.steps]. *)
Definition build_step (fs : FileSystem) (doc : CwlDoc)
    (st : list (string * Step) * list string) (kv : value * value)
  : result (list (string * Step) * list string) :=
  k <- as_id (fst kv) ;;
  l <- lines_of (snd kv) ;;
  ' (step, problems) <- from_doc fs k l doc (snd st) ;;
  Ok (assoc_set k step (fst st), problems).

(** [Workflow.__init__], for a [cwl_doc] that is a (truthy) CwlDoc. *)
Definition Workflow_init (fs : FileSystem) (doc : CwlDoc) : result Workflow :=
  let d := cwl_dict doc in
  ' (problems, sec_lines) <- foldM (check_section d) required_sections ([], []) ;;
  ins <- get d "inputs" (VDict []) ;;
  wf_inputs <- _parse_ports ins ;;
  outs <- get d "outputs" (VDict []) ;;
  wf_outputs <- _parse_ports outs ;;
  steps_sec <- get d "steps" (VDict []) ;;
  turns <- pairs_of steps_sec ;;
  ' (wf_steps, problems1) <- for_pairs turns (build_step fs doc) ([], problems) ;;
  ' (conns, problems2) <-
    _list_connections doc wf_inputs wf_outputs wf_steps problems1 ;;
  Ok (mkWorkflow doc problems2 sec_lines wf_inputs wf_outputs wf_steps conns).

(** [Workflow.find_connection] *)
Definition find_connection (self : Workflow) (conn : Connection)
  : option line_range :=
  match find (fun c => Connection_eq c conn) (connections self) with
  | Some c => conn_line c
  | None => None
  end.

End WorkflowModel.

(* ===================================================================== *)
(** ** benten/gui/view/commandwidget.py                                  *)
(* ===================================================================== *)

Module Console.
Import Py.

Definition nl : string := String (ascii_of_nat 10) "".

(** *** [shlex.split], as [command_entered] calls it

    POSIX mode, [whitespace_split] on, no comment characters: the state
    machine of [shlex.read_token] run over the whole line.  [LWhite] is
    the state [' '], [LWord] is ['a'], [LQuote q] is the state named by
    the open quote and [LEscape back] the state named by the backslash,
    [back] being [escapedstate]. *)
Inductive lex_state : Type :=
| LWhite
| LWord
| LQuote (q : ascii)
| LEscape (back : lex_state).

Definition is_whitespace (c : ascii) : bool :=
  let n := nat_of_ascii c in
  Nat.eqb n 32 || Nat.eqb n 9 || Nat.eqb n 13 || Nat.eqb n 10.

Definition is_quote (c : ascii) : bool :=
  Ascii.eqb c squote || Ascii.eqb c dquote.

Definition is_escape (c : ascii) : bool := Ascii.eqb c "\"%char.

Definition snoc_char (token : string) (c : ascii) : string :=
  (token ++ String c "")%string.

(** A token is handed out when it is not empty or was quoted. *)
Definition emit (token : string) (quoted : bool) (rest : result (list string))
  : result (list string) :=
  if negb (String.eqb token "") || quoted
  then (ts <- rest ;; Ok (token :: ts))
  else rest.

Fixpoint read_tokens (st : lex_state) (token : string) (quoted : bool)
    (line : string) : result (list string) :=
  match line with
  | EmptyString =>
      match st with
      | LWhite => Ok []
      | LWord => emit token quoted (Ok [])
      | LQuote _ => Raise (ValueError "No closing quotation")
      | LEscape _ => Raise (ValueError "No escaped character")
      end
  | String c rest =>
      match st with
      | LWhite =>
          if is_whitespace c then read_tokens LWhite "" false rest
          else if is_escape c then read_tokens (LEscape LWord) token quoted rest
          else if is_quote c then read_tokens (LQuote c) token quoted rest
          else read_tokens LWord (String c "") quoted rest
      | LQuote q =>
          if Ascii.eqb c q then read_tokens LWord token true rest
          else if is_escape c && Ascii.eqb q dquote
               then read_tokens (LEscape (LQuote q)) token true rest
          else read_tokens (LQuote q) (snoc_char token c) true rest
      | LEscape back =>
          let token' :=
            match back with
            | LQuote q =>
                if negb (is_escape c) && negb (Ascii.eqb c q)
                then snoc_char token "\"%char
                else token
            | _ => token
            end in
          read_tokens back (snoc_char token' c) quoted rest
      | LWord =>
          if is_whitespace c
          then emit token quoted (read_tokens LWhite "" false rest)
          else if is_quote c then read_tokens (LQuote c) token quoted rest
          else if is_escape c then read_tokens (LEscape LWord) token quoted rest
          else read_tokens LWord (snoc_char token c) quoted rest
      end
  end.

Definition shlex_split (line : string) : result (list string) :=
  read_tokens LWhite "" false line.

(** *** The command line field *)

Record CommandLine : Type := mkCommandLine {
  text : string;
  history : list string;
  history_n : Z
}.

(** [CommandLine.__init__] *)
Definition CommandLine_init : CommandLine := mkCommandLine "" [""] 0.

(** A key press: the two navigation keys, or any other key, carrying what
    the toolkit's own line edit does to the text for it. *)
Inductive key : Type :=
| Key_Up
| Key_Down
| Key_Other (edit : string -> string).

Definition len (l : list string) : Z := Z.of_nat (length l).

(** [self.setText(self.history[self.history_n])] behind its guard
    [-1 < self.history_n < len(self.history)]. *)
Definition show_history (self : CommandLine) : CommandLine :=
  if (-1 <? history_n self)%Z && (history_n self <? len (history self))%Z
  then mkCommandLine (nth (Z.to_nat (history_n self)) (history self) "")
                     (history self) (history_n self)
  else self.

(** [CommandLine.keyPressEvent] *)
Definition keyPressEvent (self : CommandLine) (event : key) : CommandLine :=
  match event with
  | Key_Up =>
      let n := (history_n self - 1)%Z in
      let n := if (n <? 0)%Z then (len (history self) - 1)%Z else n in
      show_history (mkCommandLine (text self) (history self) n)
  | Key_Down =>
      let n := (history_n self + 1)%Z in
      let n := if (n >? len (history self) - 1)%Z then 0%Z else n in
      show_history (mkCommandLine (text self) (history self) n)
  | Key_Other edit =>
      mkCommandLine (edit (text self)) (history self) (history_n self)
  end.

(** [CommandLine.command_entered] *)
Definition CommandLine_command_entered (self : CommandLine) : CommandLine :=
  let h := if existsb (String.eqb (text self)) (history self)
           then history self
           else history self ++ [text self] in
  mkCommandLine (text self) h (len h).

(** *** The console *)

(** Modelled from the spec: [Edit] of [benten.editing.edit], "a line range
    (or a single insertion point), replacement text, and an optional
    final-cursor-position hint". *)
Record Edit : Type := mkEdit {
  edit_range : Z * Z;
  edit_text : string;
  edit_cursor : option (Z * Z)
}.

(** What the remote push returns: [app.id] and [app.raw["sbg:id"]]. *)
Record App : Type := mkApp {
  app_id : string;
  raw_sbg_id : option string
}.

(** What the console reads from the view that hosts it and from the
    modules it imports, none of which are among the sources:
    [self.process_type()] (the [class] field, [None] when absent),
    [self.attached_view.doc.insert_into_lom], the remote [push] applied to
    the editor's configuration and cached text, the configured scaffold
    path with its existence test and contents, [get_rel_path] of the root
    document and [self.process_model.add_step]. *)
Record Host : Type := mkHost {
  process_type : option string;
  insert_into_lom : list string -> string -> string -> string -> result Edit;
  push : string -> option string -> result App;
  scaffold_path : result string;
  path_exists : string -> bool;
  read_file : string -> result string;
  get_rel_path : string -> result string;
  add_step : string -> option string -> option string -> string -> result Edit
}.

(** What a handler call leaves behind: its return value or the exception
    it raised, and the edits it sent through [proposed_edit]. *)
Record outcome : Type := mkOutcome {
  returned : result string;
  emitted : list Edit
}.

Definition returns (s : string) : outcome := mkOutcome (Ok s) [].
Definition raises (e : exn) : outcome := mkOutcome (Raise e) [].

Definition str_of_opt (o : option string) : string :=
  match o with Some s => s | None => "None" end.

(** The decorator [only_clt] *)
Definition only_clt (func : Host -> list string -> outcome)
    (self : Host) (args : list string) : outcome :=
  match process_type self with
  | Some "CommandLineTool" => func self args
  | _ => returns ("Can only do this on CommandLineTool: This is "
                  ++ str_of_opt (process_type self))
  end.

(** The decorator [only_wf] *)
Definition only_wf (func : Host -> list string -> outcome)
    (self : Host) (args : list string) : outcome :=
  match process_type self with
  | Some "Workflow" => func self args
  | _ => returns "Can only do this on Workflow"
  end.

(** [CommandWidget.sbpush] *)
Definition sbpush (self : Host) (args : list string) : outcome :=
  match args with
  | [commit_message] | [commit_message; _] =>
      let app_path := match args with [_; p] => Some p | _ => None end in
      match push self commit_message app_path with
      | Raise e => raises e
      | Ok app =>
          match raw_sbg_id app with
          | None => raises (KeyError (repr_str "sbg:id"))
          | Some _ => returns ("Pushed app to " ++ app_id app ++ nl)
          end
      end
  | _ => returns "Arguments are <message> [project/id]"
  end.

(** The body of [CommandWidget.docker_scaffold], under its decorator. *)
Definition docker_scaffold_body (self : Host) (args : list string) : outcome :=
  match args with
  | [docker_image] =>
      match insert_into_lom self ["requirements"] "DockerRequirement" "class"
              ("dockerPull: " ++ docker_image ++ nl) with
      | Raise e => raises e
      | Ok edit => mkOutcome (Ok "Added DockerRequirement") [edit]
      end
  | _ => returns "Incorrect number of arguments"
  end.

(** [CommandWidget.docker_scaffold] *)
Definition docker_scaffold : Host -> list string -> outcome :=
  only_clt docker_scaffold_body.

(** The body of [CommandWidget.add_step_scaffold], under its decorator. *)
Definition add_step_scaffold_body (self : Host) (args : list string)
  : outcome :=
  match args with
  | [step_id] | [step_id; _] =>
      let path := match args with [_; p] => Some p | _ => None end in
      match scaffold_path self with
      | Raise e => raises e
      | Ok sp =>
          if negb (path_exists self sp)
          then returns ("Couldn't find step scaffold file " ++ sp)
          else
            match (scaffold <- read_file self sp ;;
                   rel_path <- match path with
                               | Some p => r <- get_rel_path self p ;; Ok (Some r)
                               | None => Ok None
                               end ;;
                   add_step self scaffold rel_path path step_id) with
            | Raise e => raises e
            | Ok edit => mkOutcome (Ok "Added step") [edit]
            end
      end
  | _ => returns "Arguments are <step_id> [path]"
  end.

(** [CommandWidget.add_step_scaffold] *)
Definition add_step_scaffold : Host -> list string -> outcome :=
  only_wf add_step_scaffold_body.

(** The bound handlers a table entry can hold in its ["call"] field. *)
Inductive handler : Type :=
| print_help_handler
| sbpush_handler
| docker_scaffold_handler
| add_step_scaffold_handler.

Record entry : Type := mkEntry {
  synonyms : list string;
  help : string;
  call : handler
}.

(** The methods tagged by [meta], in the order of
    [sorted(self.__dir__())]: [(fn.cmd, entry)]. *)
Definition tagged_methods : list (string * entry) :=
  [ ("add",
     mkEntry []
       ("add <step_id> [path] : Create scaffold for new inline step, "
        ++ "or, if path is given new linked step.")
       add_step_scaffold_handler);
    ("docker",
     mkEntry [] "docker <docker_image> : Add DockerRequirement to CLT"
       docker_scaffold_handler);
    ("sbpush",
     mkEntry []
       ("sbpush <message> [project/id]  " ++ nl
        ++ "Push this app to the platform")
       sbpush_handler) ].

(** [CommandWidget.set_up_dispatcher]: [(expanded_table, table)] *)
Definition set_up_dispatcher
  : list (string * entry) * list (string * entry) :=
  let table :=
    fold_left (fun t fn => assoc_set (fst fn) (snd fn) t) tagged_methods
      [("help", mkEntry ["?"; "h"] "help: Print help" print_help_handler)] in
  let expanded_table :=
    fold_left
      (fun t kv =>
         fold_left (fun t' _k => assoc_set _k (snd kv) t')
                   (fst kv :: synonyms (snd kv)) t)
      table [] in
  (expanded_table, table).

Definition dispatch_table : list (string * entry) := fst set_up_dispatcher.
Definition help_table : list (string * entry) := snd set_up_dispatcher.

(** [CommandWidget.print_help] *)
Definition print_help (args : list string) : outcome :=
  returns
    (str_join nl
       (map (fun kv =>
               let v := snd kv in
               (help v ++ nl
                ++ match synonyms v with
                   | [] => ""
                   | syn => "Synonyms: " ++ repr_str_list syn ++ nl
                   end)%string)
            help_table)).

Definition run_handler (host : Host) (h : handler) (args : list string)
  : outcome :=
  match h with
  | print_help_handler => print_help args
  | sbpush_handler => sbpush host args
  | docker_scaffold_handler => docker_scaffold host args
  | add_step_scaffold_handler => add_step_scaffold host args
  end.

Record CommandWidget : Type := mkCommandWidget {
  command_line : CommandLine;
  command_log : string;
  proposed_edit : list Edit
}.

(** [CommandWidget.__init__] *)
Definition CommandWidget_init : CommandWidget :=
  mkCommandWidget CommandLine_init "" [].

(** [CommandWidget.response_received]: the transcript after the call. *)
Definition response_received (log cmd_line response : string) : string :=
  (log ++ (nl ++ ("$> " ++ cmd_line ++ nl)) ++ response)%string.

(** The first half of [CommandWidget.command_entered]: the line is split,
    the command looked up and run; the response text and the edits sent
    through [proposed_edit], or the exception that leaves the slot. *)
Definition respond (host : Host) (cmd_line : string)
  : result (string * list Edit) :=
  tokens <- shlex_split cmd_line ;;
  match tokens with
  | [] =>
      Raise (ValueError
               "not enough values to unpack (expected at least 1, got 0)")
  | cmd :: arguments =>
      match assoc_get cmd dispatch_table with
      | Some e =>
          let o := run_handler host (call e) arguments in
          Ok (match returned o with
              | Ok r => r
              | Raise x => ("Command error:" ++ nl ++ exn_str x)%string
              end, emitted o)
      | None => Ok (("Unknown command: " ++ cmd)%string, [])
      end
  end.

(** [CommandWidget.command_entered]: the widget after the slot has run
    (the field cleared and the exchange added to the transcript), or the
    exception that leaves the slot. *)
Definition command_entered (host : Host) (self : CommandWidget)
  : result CommandWidget :=
  let cmd_line := text (command_line self) in
  ' (response, edits) <- respond host cmd_line ;;
  Ok (mkCommandWidget
        (mkCommandLine "" (history (command_line self))
                       (history_n (command_line self)))
        (response_received (command_log self) cmd_line response)
        (proposed_edit self ++ edits)).

(** The user presses Return in the field: the slots connected to
    [returnPressed] run in the order they were connected, the field's own
    first, the console's second. *)
Definition returnPressed (host : Host) (self : CommandWidget)
  : result CommandWidget :=
  command_entered host
    (mkCommandWidget (CommandLine_command_entered (command_line self))
                     (command_log self) (proposed_edit self)).

(** The user replaces the field's content by [s] and presses Return. *)
Definition submit (host : Host) (s : string) (self : CommandWidget)
  : result CommandWidget :=
  returnPressed host
    (mkCommandWidget
       (keyPressEvent (command_line self) (Key_Other (fun _ => s)))
       (command_log self) (proposed_edit self)).

(** A navigation key reaches the field. *)
Definition press (k : key) (self : CommandWidget) : CommandWidget :=
  mkCommandWidget (keyPressEvent (command_line self) k)
                  (command_log self) (proposed_edit self).

End Console.

(* ===================================================================== *)
(** ** benten/gui/bentenmainwidget.py                                    *)
(* ===================================================================== *)

Module MainWidget.
Import Py WorkflowModel.

(** A view widget (a [BentenWindow]) is known by its identity. *)
Definition widget : Type := nat.

Definition doc_key : Type := (string * list string)%type.

Definition key_eqb (a b : doc_key) : bool :=
  String.eqb (fst a) (fst b)
  && if list_eq_dec string_dec (snd a) (snd b) then true else false.

(** Modelled from the spec: [MultiDocumentManager] of
    [benten.gui.multidocumentmanager], which is not among the sources.
    [open_window] "given a resolved parent file path and an inline-path
    tuple (empty/absent meaning the file's root), returns the existing
    view widget for that exact key if one exists; otherwise constructs a
    new [one] and registers it under that key, then returns it". *)
Record MultiDocumentManager : Type := mkManager {
  windows : list (doc_key * widget);
  next_widget : widget
}.

Definition open_window (m : MultiDocumentManager) (parent_path : string)
    (inline_path : option (list string)) : widget * MultiDocumentManager :=
  let k := (parent_path, match inline_path with Some p => p | None => [] end) in
  match find (fun kw => key_eqb (fst kw) k) (windows m) with
  | Some kw => (snd kw, m)
  | None =>
      (next_widget m, mkManager (windows m ++ [(k, next_widget m)])
                                (S (next_widget m)))
  end.

(** One page of the tab widget: the view it hosts, its title and tool
    tip, and whether its close buttons are shown. *)
Record tab : Type := mkTab {
  page : widget;
  label : string;
  tool_tip : string;
  close_buttons : bool
}.

(** The signals of a view the shell has subscribed to. *)
Inductive signal : Type := scene_double_clicked_signal | edit_registered_signal.

(** The shell: the toolkit's tab widget state (its pages in tab order and
    the current index, [-1] when there is none) and the signal connections
    made so far. *)
Record BentenMainWidget : Type := mkShell {
  multi_document_manager : MultiDocumentManager;
  tabs : list tab;
  currentIndex : Z;
  connections : list (widget * signal)
}.

(** [BentenMainWidget.__init__] *)
Definition BentenMainWidget_init : BentenMainWidget :=
  mkShell (mkManager [] 0) [] (-1) [].

(** The toolkit's tab widget: [count()], [widget(idx)] and
    [setCurrentIndex(idx)]. *)
Definition count (self : BentenMainWidget) : nat := length (tabs self).

Definition widget_at (self : BentenMainWidget) (idx : nat) : option widget :=
  option_map page (nth_error (tabs self) idx).

Definition setCurrentIndex (self : BentenMainWidget) (idx : nat)
  : BentenMainWidget :=
  if (idx <? count self)%nat
  then mkShell (multi_document_manager self) (tabs self) (Z.of_nat idx)
               (connections self)
  else self.

(** The tabs left when the page [bw] is taken out. *)
Definition remove_page (bw : widget) (l : list tab) : list tab :=
  filter (fun t => negb (Nat.eqb (page t) bw)) l.

Fixpoint index_of (bw : widget) (l : list tab) : option nat :=
  match l with
  | [] => None
  | t :: l' =>
      if Nat.eqb (page t) bw then Some 0%nat
      else option_map S (index_of bw l')
  end.

(** The toolkit's [addTab(page, label)].  A widget is a page of the tab
    widget at most once: a widget that is already a page is taken out of
    its tab first, then the new tab goes after the remaining ones, with
    fresh close buttons (the shell is built with closable tabs); the
    index of the new tab is returned.  When the page taken out was the
    current one the toolkit selects its right neighbour, and the first
    tab of an empty widget becomes the current one. *)
Definition addTab (self : BentenMainWidget) (bw : widget) (name : string)
  : nat * BentenMainWidget :=
  let kept := remove_page bw (tabs self) in
  let cur :=
    match index_of bw (tabs self) with
    | None => currentIndex self
    | Some i =>
        if (Z.of_nat i <? currentIndex self)%Z then (currentIndex self - 1)%Z
        else if (currentIndex self =? Z.of_nat i)%Z
             then Z.min (Z.of_nat i) (Z.of_nat (length kept) - 1)
             else currentIndex self
    end in
  (length kept,
   mkShell (multi_document_manager self) (kept ++ [mkTab bw name "" true])
           (if (cur <? 0)%Z then 0%Z else cur)
           (connections self)).

(** [setTabToolTip(idx, tip)] *)
Fixpoint set_tip (l : list tab) (idx : nat) (tip : string) : list tab :=
  match l, idx with
  | [], _ => []
  | t :: l', O => mkTab (page t) (label t) tip (close_buttons t) :: l'
  | t :: l', S i => t :: set_tip l' i tip
  end.

Definition setTabToolTip (self : BentenMainWidget) (idx : nat) (tip : string)
  : BentenMainWidget :=
  mkShell (multi_document_manager self) (set_tip (tabs self) idx tip)
          (currentIndex self) (connections self).

(** [signal.connect(slot)]: every call adds a connection. *)
Definition connect (self : BentenMainWidget) (bw : widget) (sg : signal)
  : BentenMainWidget :=
  mkShell (multi_document_manager self) (tabs self) (currentIndex self)
          (connections self ++ [(bw, sg)]).

(** [BentenMainWidget._make_base_tab_unclosable]: the close buttons of
    the tab at index 0 are hidden. *)
Definition _make_base_tab_unclosable (self : BentenMainWidget)
  : BentenMainWidget :=
  mkShell (multi_document_manager self)
          (match tabs self with
           | [] => []
           | t :: l => mkTab (page t) (label t) (tool_tip t) false :: l
           end)
          (currentIndex self) (connections self).

(** Python's [for x in items: body / else: orelse]: the body tells
    whether it left the loop through [break]; [orelse] runs when the loop
    came to its end without one. *)
Fixpoint for_else {S A : Type} (items : list A) (body : S -> A -> S * bool)
    (orelse : S -> S) (s : S) : S :=
  match items with
  | [] => orelse s
  | x :: rest =>
      let ' (s', broke) := body s x in
      if (broke : bool) then s' else for_else rest body orelse s'
  end.

(** [BentenMainWidget.open_document] *)
Definition open_document (self : BentenMainWidget) (parent_path : string)
    (inline_path : option (list string)) : BentenMainWidget :=
  let ' (bw, mgr) :=
    open_window (multi_document_manager self) parent_path inline_path in
  let self := mkShell mgr (tabs self) (currentIndex self) (connections self) in
  let self :=
    for_else (seq 0 (count self))
      (fun s idx =>
         (* the body has no [break] *)
         (match widget_at s idx with
          | Some w => if Nat.eqb w bw then setCurrentIndex s idx else s
          | None => s
          end, false))
      (fun s =>
         let tab_name :=
           match inline_path with
           | None | Some [] => "root"
           | Some p => str_join "." p
           end in
         let s := connect s bw scene_double_clicked_signal in
         let s := connect s bw edit_registered_signal in
         let ' (idx, s) := addTab s bw tab_name in
         let s := setTabToolTip s idx (parent_path ++ "#" ++ tab_name) in
         setCurrentIndex s idx)
      self in
  if Nat.eqb (count self) 1 then _make_base_tab_unclosable self else self.

(** [BentenMainWidget.scene_double_clicked] *)
Fixpoint scene_double_clicked (self : BentenMainWidget)
    (sub_workflows : list SubWorkflow) : result BentenMainWidget :=
  match sub_workflows with
  | [] => Ok self
  | sub :: rest =>
      match sub with
      | InvalidSub_instance => scene_double_clicked self rest
      | InlineSub p ip => scene_double_clicked (open_document self p (Some ip)) rest
      | ExternalSub p => scene_double_clicked (open_document self p None) rest
      | InvalidSub_class =>
          Raise (RuntimeError "Code error: Unknown sub workflow type!")
      end
  end.

End MainWidget.

(* ===================================================================== *)
(** ** Properties of the workflow model                                  *)
(* ===================================================================== *)

Module WorkflowFacts.
Import Py WorkflowModel.

(** *** Ports *)

Lemma opt_str_eqb_eq (a b : option string) : opt_str_eqb a b = true <-> a = b.
Proof.
  destruct a as [x|], b as [y|]; simpl; try (split; congruence).
  rewrite String.eqb_eq. split; congruence.
Qed.

(** C9. Two ports are equal exactly when their owning step identifiers
    and their port identifiers are equal; in particular the line range
    plays no part: equal owner and port id with any two line ranges
    compare equal. *)
Theorem Port_eq_owner_and_id :
  (forall p q : Port,
      Port_eq p q = true <-> node_id p = node_id q /\ port_id p = port_id q)
  /\ (forall owner pid l1 l2,
         Port_eq (mkPort owner pid l1) (mkPort owner pid l2) = true).
Proof.
  assert (Hiff : forall p q : Port,
             Port_eq p q = true
             <-> node_id p = node_id q /\ port_id p = port_id q).
  { intros p q. unfold Port_eq.
    rewrite andb_true_iff, opt_str_eqb_eq, String.eqb_eq. tauto. }
  split; [exact Hiff|].
  intros owner pid l1 l2. apply Hiff. simpl. split; reflexivity.
Qed.

(** *** List-or-map sections *)

(** A section's content: identifiers in source order, each with the
    fields of its entry. *)
Definition section : Type := list (string * list (string * value)).

(** The section written as a mapping keyed by id. *)
Definition mapping_form (m : section) : value :=
  VDict (map (fun e => (fst e, VDict (snd e))) m).

(** The same content written as a sequence of objects, each carrying its
    id in an [id] field. *)
Definition sequence_form (m : section) : value :=
  VList (map (fun e => VDict (("id", VStr (fst e)) :: snd e)) m).

Definition ids_of (pairs : list (value * value)) : list value := map fst pairs.

Lemma mapM_map_ok {A B C} (f : A -> result B) (g : C -> A) (h : C -> B)
    (l : list C) :
  (forall c, f (g c) = Ok (h c)) -> mapM f (map g l) = Ok (map h l).
Proof.
  intros Hf. induction l as [|c l IH]; simpl; [reflexivity|].
  rewrite Hf. simpl. rewrite IH. reflexivity.
Qed.

(** C8, as the code has it. For a section whose entries do not carry an
    [id] field of their own (and whose ids are distinct, as the keys of a
    mapping are), the mapping form yields each id with the
    entry's fields, the sequence form yields each id with the whole
    object, id field included; the ids, and their order, are the same. *)
Theorem iter_lom_two_forms (m : section) :
  NoDup (map fst m) ->
  Forall (fun e => assoc_mem "id" (snd e) = false) m ->
  iter_lom (mapping_form m)
    = Ok (map (fun e => (VStr (fst e), VDict (snd e))) m)
  /\ iter_lom (sequence_form m)
    = Ok (map (fun e => (VStr (fst e), VDict (("id", VStr (fst e)) :: snd e))) m)
  /\ (forall pm ps, iter_lom (mapping_form m) = Ok pm ->
                    iter_lom (sequence_form m) = Ok ps ->
                    ids_of pm = ids_of ps).
Proof.
  (* the two hypotheses only say that both forms are dictionaries, with
     no key twice; the iteration itself does not depend on them *)
  intros _ _.
  assert (Hm : iter_lom (mapping_form m)
               = Ok (map (fun e => (VStr (fst e), VDict (snd e))) m)).
  { unfold mapping_form, iter_lom. rewrite map_map. reflexivity. }
  assert (Hs : iter_lom (sequence_form m)
               = Ok (map (fun e => (VStr (fst e),
                                    VDict (("id", VStr (fst e)) :: snd e))) m)).
  { unfold sequence_form, iter_lom. apply mapM_map_ok. intros c. reflexivity. }
  repeat split; trivial.
  intros pm ps Hpm Hps. rewrite Hm in Hpm. rewrite Hs in Hps.
  injection Hpm as <-. injection Hps as <-.
  unfold ids_of. rewrite !map_map. reflexivity.
Qed.

Definition one_input : section := [("reads", [("type", VStr "File")])].

Lemma iter_lom_two_forms_witness :
  NoDup (map fst one_input)
  /\ Forall (fun e => assoc_mem "id" (snd e) = false) one_input
  /\ iter_lom (sequence_form one_input)
     = Ok [(VStr "reads",
            VDict [("id", VStr "reads"); ("type", VStr "File")])].
Proof.
  assert (H : Forall (fun e => assoc_mem "id" (snd e) = false) one_input).
  { repeat constructor. }
  assert (N : NoDup (map fst one_input)).
  { repeat constructor. simpl. tauto. }
  split; [exact N|]. split; [exact H|].
  exact (proj1 (proj2 (iter_lom_two_forms one_input N H))).
Defined.

(** C8, as the spec words it, fails: the two forms of [one_input] do not
    yield identical pairs. *)
Lemma iter_lom_forms_differ :
  iter_lom (mapping_form one_input) <> iter_lom (sequence_form one_input).
Proof. vm_compute. discriminate. Qed.

(** *** Steps *)

Definition mapping_items (v : value) : option (list (string * value)) :=
  match v with
  | VDict d | CWLMap _ _ d => Some d
  | _ => None
  end.

(** The process [proc] is a mapping without the section [sec]. *)
Definition lacks (proc : value) (sec : string) : Prop :=
  exists items, mapping_items proc = Some items /\ assoc_get sec items = None.

(** The [run] field resolves to the process [proc]: an embedded process
    is the field's value itself, a string is the path of a file that
    exists and parses to [proc]. *)
Definition resolves_to (fs : FileSystem) (doc : CwlDoc) (run proc : value)
  : Prop :=
  match run with
  | VStr r => read_cwl fs (resolve fs (path doc) r) = Ok proc
  | _ => run = proc
  end.

Lemma run_target_ports_lacking step_id proc sec :
  lacks proc sec -> run_target_ports step_id proc sec = Ok [].
Proof.
  intros (items & Hm & Hget). unfold run_target_ports.
  destruct proc; simpl in Hm; try discriminate;
    injection Hm as ->; simpl; rewrite Hget; reflexivity.
Qed.

Lemma no_run_false step_doc :
  step_doc <> VNone -> contains "run" step_doc = Ok true ->
  match step_doc with
  | VNone => Ok true
  | _ => b <- contains "run" step_doc ;; Ok (negb b)
  end = Ok false.
Proof.
  intros Hn Hc. destruct step_doc; try congruence; rewrite Hc; reflexivity.
Qed.

(** What [from_doc] comes to once the [run] field has been read and has
    resolved to a process. *)
Lemma from_doc_resolved fs step_id ln doc errs steps_sec step_doc run proc :
  getitem (cwl_dict doc) "steps" = Ok steps_sec ->
  getitem steps_sec step_id = Ok step_doc ->
  step_doc <> VNone ->
  contains "run" step_doc = Ok true ->
  getitem step_doc "run" = Ok run ->
  resolves_to fs doc run proc ->
  exists sub,
    from_doc fs step_id ln doc errs =
      (sinks <- run_target_ports step_id proc "inputs" ;;
       sources <- run_target_ports step_id proc "outputs" ;;
       Ok (mkStep ln step_id (mkPortMap OrderedDict sinks)
                  (mkPortMap OrderedDict sources) sub, errs)).
Proof.
  intros Hs Hd Hn Hc Hr Hres.
  exists (match run with
          | VStr r => ExternalSub (resolve fs (path doc) r)
          | _ => InlineSub (path doc)
                   (match inline_path doc with Some ip => ip | None => [] end
                    ++ [step_id])
          end).
  unfold from_doc.
  rewrite Hs. simpl. rewrite Hd. simpl.
  rewrite (no_run_false _ Hn Hc). simpl. rewrite Hr. simpl.
  destruct run; simpl in Hres; subst; try reflexivity.
  rewrite Hres. reflexivity.
Qed.

(** C10. When the run target of a step (embedded, or an external file
    that exists and parses) has no [inputs] section, [from_doc] returns a
    step with no sinks, and when it has no [outputs] section, a step with
    no sources; the ports of the other section are kept, and the problem
    list comes back as it went in. *)
Theorem from_doc_missing_section
    fs step_id ln doc errs steps_sec step_doc run proc :
  getitem (cwl_dict doc) "steps" = Ok steps_sec ->
  getitem steps_sec step_id = Ok step_doc ->
  step_doc <> VNone ->
  contains "run" step_doc = Ok true ->
  getitem step_doc "run" = Ok run ->
  resolves_to fs doc run proc ->
  (lacks proc "inputs" ->
   forall srcs, run_target_ports step_id proc "outputs" = Ok srcs ->
   exists step,
     from_doc fs step_id ln doc errs = Ok (step, errs)
     /\ entries (available_sinks step) = []
     /\ entries (available_sources step) = srcs)
  /\ (lacks proc "outputs" ->
      forall snks, run_target_ports step_id proc "inputs" = Ok snks ->
      exists step,
        from_doc fs step_id ln doc errs = Ok (step, errs)
        /\ entries (available_sources step) = []
        /\ entries (available_sinks step) = snks).
Proof.
  intros Hs Hd Hn Hc Hr Hres.
  destruct (from_doc_resolved fs step_id ln doc errs _ _ _ _ Hs Hd Hn Hc Hr Hres)
    as [sub Heq].
  split; intros Hl ports Hp; rewrite Heq;
    rewrite (run_target_ports_lacking _ _ _ Hl), Hp; simpl;
    eexists; repeat split; reflexivity.
Qed.

Definition no_files : FileSystem :=
  mkFileSystem (fun root r => ("/work/" ++ r)%string)
               (fun p => ("file://" ++ p)%string)
               (fun p => Raise (FileNotFoundError p)).

(** An embedded tool that declares outputs and no inputs. *)
Definition tool_without_inputs : value :=
  CWLMap 6 9 [("class", VStr "CommandLineTool");
              ("outputs", CWLMap 8 9 [("report", VStr "File")])].

Definition step_with_embedded_tool : value :=
  CWLMap 5 9 [("run", tool_without_inputs)].

Definition doc_with_embedded_tool : CwlDoc :=
  mkCwlDoc
    (CWLMap 0 9 [("cwlVersion", VStr "v1.0"); ("class", VStr "Workflow");
                 ("inputs", CWLMap 2 2 []); ("outputs", CWLMap 3 3 []);
                 ("steps", CWLMap 4 9 [("qc", step_with_embedded_tool)])])
    "/work/wf.cwl" None.

Lemma from_doc_missing_section_witness :
  exists step,
    from_doc no_files "qc" (5, 9)%Z doc_with_embedded_tool ["earlier problem"]
      = Ok (step, ["earlier problem"])
    /\ entries (available_sinks step) = []
    /\ entries (available_sources step)
       = [("report", mkPort (Some "qc") "report" None)].
Proof.
  refine (proj1 (from_doc_missing_section no_files "qc" (5, 9)%Z
                   doc_with_embedded_tool ["earlier problem"]
                   (CWLMap 4 9 [("qc", step_with_embedded_tool)])
                   step_with_embedded_tool tool_without_inputs
                   tool_without_inputs
                   eq_refl eq_refl _ eq_refl eq_refl eq_refl) _ _ eq_refl).
  - discriminate.
  - exists [("class", VStr "CommandLineTool");
            ("outputs", CWLMap 8 9 [("report", VStr "File")])].
    split; reflexivity.
Defined.

(** A step whose [run] names a file that is not there: what [from_doc]
    returns. *)
Lemma from_doc_file_not_found
    fs step_id ln doc errs steps_sec step_doc r msg :
  getitem (cwl_dict doc) "steps" = Ok steps_sec ->
  getitem steps_sec step_id = Ok step_doc ->
  step_doc <> VNone ->
  contains "run" step_doc = Ok true ->
  getitem step_doc "run" = Ok (VStr r) ->
  read_cwl fs (resolve fs (path doc) r) = Raise (FileNotFoundError msg) ->
  from_doc fs step_id ln doc errs
  = Ok (mkStep ln step_id (mkPortMap OrderedDict []) (mkPortMap OrderedDict [])
               InvalidSub_class,
        errs ++ [("Could not find sub workflow: " ++ r ++ " (resolved to "
                  ++ as_uri fs (resolve fs (path doc) r) ++ ")")%string]).
Proof.
  intros Hs Hd Hn Hc Hr Hread. unfold from_doc.
  rewrite Hs. simpl. rewrite Hd. simpl.
  rewrite (no_run_false _ Hn Hc). simpl. rewrite Hr. simpl.
  rewrite Hread. reflexivity.
Qed.

Definition doc_with_missing_file : CwlDoc :=
  mkCwlDoc
    (CWLMap 0 6 [("cwlVersion", VStr "v1.0"); ("class", VStr "Workflow");
                 ("inputs", CWLMap 2 2 []); ("outputs", CWLMap 3 3 []);
                 ("steps",
                  CWLMap 4 6 [("align",
                               CWLMap 5 6 [("run", VStr "tools/align.cwl")])])])
    "/work/wf.cwl" None.

(** C5, on the code. For the step [align] of [doc_with_missing_file],
    whose [run] names a file that does not exist, [from_doc] returns a
    step with empty sink and source maps and appends the one problem
    string, with the path as written and the resolved path as a URI; but
    the [sub_workflow] it stores is the class object [InvalidSub], not an
    instance of it: [isinstance(sub, InvalidSub)] is false, and the
    shell's double-click handler, which skips Invalid references, raises
    on this one. *)
Theorem from_doc_missing_file_stores_class :
  exists step,
    from_doc no_files "align" (5, 6)%Z doc_with_missing_file []
    = Ok (step,
          ["Could not find sub workflow: tools/align.cwl (resolved to file:///work/tools/align.cwl)"])
    /\ entries (available_sinks step) = []
    /\ entries (available_sources step) = []
    /\ sub_workflow step = InvalidSub_class
    /\ isinstance_InvalidSub (sub_workflow step) = false
    /\ MainWidget.scene_double_clicked MainWidget.BentenMainWidget_init
         [sub_workflow step]
       = Raise (RuntimeError "Code error: Unknown sub workflow type!").
Proof.
  eexists. split.
  - apply (from_doc_file_not_found no_files "align" (5, 6)%Z
             doc_with_missing_file []
             (CWLMap 4 6 [("align", CWLMap 5 6 [("run", VStr "tools/align.cwl")])])
             (CWLMap 5 6 [("run", VStr "tools/align.cwl")])
             "tools/align.cwl" "/work/tools/align.cwl");
      try reflexivity; discriminate.
  - repeat split.
Qed.

(** The sibling path: a step without a [run] field gets an instance. *)
Lemma from_doc_no_run fs step_id ln doc errs steps_sec s e fields :
  getitem (cwl_dict doc) "steps" = Ok steps_sec ->
  getitem steps_sec step_id = Ok (CWLMap s e fields) ->
  assoc_get "run" fields = None ->
  from_doc fs step_id ln doc errs
  = Ok (mkStep ln step_id (mkPortMap PlainDict []) (mkPortMap PlainDict [])
               InvalidSub_instance,
        errs ++ [("step " ++ step_id ++ " has no run field")%string]).
Proof.
  intros Hs Hd Hr. unfold from_doc. rewrite Hs. simpl. rewrite Hd. simpl.
  unfold assoc_mem. rewrite Hr. reflexivity.
Qed.

(** *** Connections *)



(** Every source of the loop either resolves or fails with a
    connection-resolution error. *)
Definition settles (wf_inputs : list (string * Port))
    (wf_steps : list (string * Step)) (v : value) : Prop :=
  (exists p, _get_source wf_inputs wf_steps v = Ok p)
  \/ (exists msg, _get_source wf_inputs wf_steps v = Raise (WFConnectionError msg)).


Lemma str_split_length c s : (1 <= length (str_split c s))%nat.
Proof.
  induction s as [|a s IH]; simpl; [lia|].
  destruct (Ascii.eqb a c); simpl; [lia|].
  destruct (str_split c s); simpl in *; lia.
Qed.

Lemma str_contains_split c s :
  str_contains (String c "") s = true -> (2 <= length (str_split c s))%nat.
Proof.
  induction s as [|a s IH]; simpl; [discriminate|].
  destruct (Ascii.eqb a c) eqn:E.
  - intros _. simpl. pose proof (str_split_length c s). lia.
  - rewrite Ascii.eqb_sym, E. simpl. intros H. specialize (IH H).
    destruct (str_split c s); simpl in *; lia.
Qed.

(** X12. A source text with at most one [/] always settles: it resolves
    to a port, or fails with a connection-resolution error, whatever the
    inputs and steps of the workflow are. *)
Lemma one_slash_settles wf_inputs wf_steps s :
  (length (str_split "/" s) <= 2)%nat -> settles wf_inputs wf_steps (VStr s).
Proof.
  intros Hlen. unfold settles, _get_source.
  destruct (String.eqb s ""); [right; eauto|].
  destruct (str_contains "/" s) eqn:Hc.
  - unfold _get_step_source.
    pose proof (str_contains_split "/" s Hc) as H2.
    destruct (str_split "/" s) as [|a [|b [|c t]]] eqn:E.
    + simpl in H2. lia.
    + simpl in H2. lia.
    + destruct (assoc_get a wf_steps) as [st|]; [|right; eauto].
      destruct (assoc_get b (entries (available_sources st)));
        [left | right]; eauto.
    + simpl in Hlen. lia.
  - destruct (assoc_get s wf_inputs); [left | right]; eauto.
Qed.

(** A workflow output whose [outputSource] lists two sources, one that
    resolves and one that fails with a connection-resolution error, in
    either order: the output's turn of the loop returns, having added
    exactly one connection, from the port the valid source resolves to
    into the output's port, and exactly one problem string, for the other
    source. *)
Theorem connect_output_one_valid_one_invalid
    wf_inputs wf_steps wf_outputs acc out_id s e fields sl el pl srcs
    sink v_ok v_bad p msg :
  assoc_get out_id wf_outputs = Some sink ->
  assoc_get "outputSource" fields = Some (CWLList sl el pl srcs) ->
  srcs = [v_ok; v_bad] \/ srcs = [v_bad; v_ok] ->
  _get_source wf_inputs wf_steps v_ok = Ok p ->
  _get_source wf_inputs wf_steps v_bad = Raise (WFConnectionError msg) ->
  connect_output wf_inputs wf_steps wf_outputs acc
    (VStr out_id, CWLMap s e fields)
  = Ok (fst acc ++ [mkConnection (Some (s, e)) p sink],
        snd acc ++ [(port_id sink ++ ": " ++ msg)%string]).
Proof.
  intros Hsink Hsrc Horder Hok Hbad.
  unfold connect_output. simpl. rewrite Hsink. simpl.
  unfold assoc_mem. rewrite Hsrc. simpl.
  destruct Horder as [-> | ->]; simpl; rewrite Hok, Hbad; simpl;
    try rewrite Hok; try rewrite Hbad; reflexivity.
Qed.

Definition reads_port : Port := mkPort None "reads" (Some (2, 2)%Z).
Definition bam_port : Port := mkPort None "bam" (Some (4, 6)%Z).

Lemma connect_output_one_valid_one_invalid_witness :
  connect_output [("reads", reads_port)] [] [("bam", bam_port)] ([], [])
    (VStr "bam",
     CWLMap 4 6 [("type", VStr "File");
                 ("outputSource",
                  CWLList 5 6 true [VStr "reads"; VStr "align/bam"])])
  = Ok ([mkConnection (Some (4, 6)%Z) reads_port bam_port],
        ["bam: No such source step align"]).
Proof.
  apply (connect_output_one_valid_one_invalid
           [("reads", reads_port)] [] [("bam", bam_port)] ([], []) "bam"
           4%Z 6%Z
           [("type", VStr "File");
            ("outputSource", CWLList 5 6 true [VStr "reads"; VStr "align/bam"])]
           5%Z 6%Z true [VStr "reads"; VStr "align/bam"]
           bam_port (VStr "reads") (VStr "align/bam") reads_port
           "No such source step align").
  - reflexivity.
  - reflexivity.
  - left. reflexivity.
  - reflexivity.
  - reflexivity.
Defined.

(** The same workflow as a whole: one input, one step with an embedded
    tool, and one output that names the input and a source text with two
    [/]. *)
Definition doc_with_one_bad_source : CwlDoc :=
  mkCwlDoc
    (CWLMap 0 14
       [("cwlVersion", VStr "v1.0"); ("class", VStr "Workflow");
        ("inputs", CWLMap 2 3 [("reads", VStr "File")]);
        ("outputs",
         CWLMap 4 7
           [("bam",
             CWLMap 5 7
               [("type", VStr "File");
                ("outputSource",
                 CWLList 6 7 true [VStr "reads"; VStr "align/out/bam"])])]);
        ("steps",
         CWLMap 8 14
           [("align",
             CWLMap 9 14
               [("run",
                 CWLMap 10 12
                   [("class", VStr "CommandLineTool");
                    ("inputs", CWLMap 11 11 [("reads", VStr "File")]);
                    ("outputs", CWLMap 12 12 [("out", VStr "File")])]);
                ("in", CWLMap 13 14 [("reads", VStr "reads")])])])])
    "/work/wf.cwl" None.

(** C4, on the code. For the output [bam] whose [outputSource] names the
    workflow input [reads], which resolves, and [align/out/bam], which
    does not, the output's turn of the loop neither keeps the connection
    of the valid source nor records a problem for the other: in either
    order of the two sources it ends in the [ValueError] of the two-name
    unpacking in [_get_step_source], which [except WFConnectionError]
    lets through, and the constructor of the whole workflow ends in
    it. *)
Theorem connect_output_bad_source_discards_all :
  connect_output [("reads", reads_port)] [] [("bam", bam_port)] ([], [])
    (VStr "bam",
     CWLMap 4 6 [("type", VStr "File");
                 ("outputSource",
                  CWLList 5 6 true [VStr "reads"; VStr "align/out/bam"])])
  = Raise (ValueError "too many values to unpack (expected 2)")
  /\ connect_output [("reads", reads_port)] [] [("bam", bam_port)] ([], [])
       (VStr "bam",
        CWLMap 4 6 [("type", VStr "File");
                    ("outputSource",
                     CWLList 5 6 true [VStr "align/out/bam"; VStr "reads"])])
     = Raise (ValueError "too many values to unpack (expected 2)")
  /\ Workflow_init no_files doc_with_one_bad_source
     = Raise (ValueError "too many values to unpack (expected 2)").
Proof. repeat split; vm_compute; reflexivity. Qed.

(** A source that is not a text at all, such as a number, ends the turn
    in a [TypeError]. *)
Lemma connect_output_number_source_raises :
  connect_output [("reads", reads_port)] [] [("bam", bam_port)] ([], [])
    (VStr "bam",
     CWLMap 4 6 [("outputSource", CWLList 5 6 true [VStr "reads"; VInt 5])])
  = Raise (TypeError "argument of type 'int' is not iterable").
Proof. vm_compute. reflexivity. Qed.

(** A workflow with every required section, one input, one step with an
    embedded tool, and one output whose source text has two [/]. *)
Definition doc_with_nested_source : CwlDoc :=
  mkCwlDoc
    (CWLMap 0 14
       [("cwlVersion", VStr "v1.0"); ("class", VStr "Workflow");
        ("inputs", CWLMap 2 3 [("reads", VStr "File")]);
        ("outputs",
         CWLMap 4 7
           [("bam", CWLMap 5 7 [("type", VStr "File");
                                ("outputSource", VStr "align/out/bam")])]);
        ("steps",
         CWLMap 8 14
           [("align",
             CWLMap 9 14
               [("run",
                 CWLMap 10 12
                   [("class", VStr "CommandLineTool");
                    ("inputs", CWLMap 11 11 [("reads", VStr "File")]);
                    ("outputs", CWLMap 12 12 [("out", VStr "File")])]);
                ("in", CWLMap 13 14 [("reads", VStr "reads")])])])])
    "/work/wf.cwl" None.

(** C1, on the code. Building the workflow of [doc_with_nested_source]
    does not return: the unpacking of [_src.split("/")] into two names
    raises [ValueError], which the [except WFConnectionError] around the
    resolution does not catch, so the exception leaves the constructor
    and no problem string is recorded for the source. *)
Theorem Workflow_init_raises_on_nested_source :
  Workflow_init no_files doc_with_nested_source
  = Raise (ValueError "too many values to unpack (expected 2)").
Proof. vm_compute. reflexivity. Qed.

(** The same document with a source that names a missing port is built,
    with the failure among the problems. *)
Lemma Workflow_init_records_missing_port :
  exists wf,
    Workflow_init no_files
      (mkCwlDoc
         (CWLMap 0 7
            [("cwlVersion", VStr "v1.0"); ("class", VStr "Workflow");
             ("inputs", CWLMap 2 3 [("reads", VStr "File")]);
             ("outputs",
              CWLMap 4 7
                [("bam", CWLMap 5 7 [("outputSource", VStr "align/bam")])]);
             ("steps", CWLMap 8 8 [])])
         "/work/wf.cwl" None)
    = Ok wf
    /\ problems_with_wf wf = ["bam: No such source step align"]
    /\ connections wf = [].
Proof. eexists. split; [vm_compute; reflexivity|]. split; reflexivity. Qed.

End WorkflowFacts.

(* ===================================================================== *)
(** ** Properties of the command console                                 *)
(* ===================================================================== *)

Module ConsoleFacts.
Import Py Console.

(** *** Dispatch *)

(** C3, on the code. With an empty command line in the field, the slot
    does not answer: [split] returns no token, the unpacking
    [cmd, *arguments = ...] raises [ValueError] before the [try], and the
    exception leaves [command_entered]; nothing is added to the
    transcript. *)
Theorem command_entered_empty_line_raises
    (host : Host) (h : list string) (n : Z) (log : string) (edits : list Edit) :
  command_entered host (mkCommandWidget (mkCommandLine "" h n) log edits)
  = Raise (ValueError "not enough values to unpack (expected at least 1, got 0)").
Proof. reflexivity. Qed.

(** So does a line of blanks, and a line with an open quote. *)
Lemma respond_blank_line_raises host :
  respond host "   "
  = Raise (ValueError "not enough values to unpack (expected at least 1, got 0)").
Proof. reflexivity. Qed.

Lemma respond_open_quote_raises host :
  respond host "sbpush 'first version"
  = Raise (ValueError "No closing quotation").
Proof. reflexivity. Qed.

(** X13. Once the line splits into at least one token, the slot returns:
    the field is cleared with its history untouched, the exchange is added
    at the end of the transcript, the edits proposed before are kept, and
    the response is the handler's text, the command-error text for a
    handler that raised, or the unknown-command text. *)
Lemma command_entered_responds host self cmd args :
  shlex_split (text (command_line self)) = Ok (cmd :: args) ->
  exists response edits,
    command_entered host self
    = Ok (mkCommandWidget
            (mkCommandLine "" (history (command_line self))
                           (history_n (command_line self)))
            (response_received (command_log self) (text (command_line self))
                               response)
            (proposed_edit self ++ edits))
    /\ match assoc_get cmd dispatch_table with
       | None => response = ("Unknown command: " ++ cmd)%string
       | Some e =>
           match returned (run_handler host (call e) args) with
           | Ok r => response = r
           | Raise x => response = ("Command error:" ++ nl ++ exn_str x)%string
           end
       end.
Proof.
  intros Hsplit. unfold command_entered, respond. rewrite Hsplit.
  cbn [bind].
  destruct (assoc_get cmd dispatch_table) as [e|]; cbn [bind].
  - eexists _, _. split; [reflexivity|].
    destruct (returned (run_handler host (call e) args)); reflexivity.
  - eexists _, _. split; reflexivity.
Qed.

(** *** The docker command *)

Lemma docker_dispatch :
  option_map call (assoc_get "docker" dispatch_table)
  = Some docker_scaffold_handler.
Proof. reflexivity. Qed.

(** C6, as the code has it. For a command line that splits into [docker]
    and zero or two arguments: on a CommandLineTool the response is
    exactly "Incorrect number of arguments"; on any other process type it
    is the process-type message, the decorator answering before the
    arguments are counted; in both cases no edit is proposed. *)
Theorem docker_wrong_argument_count host line args :
  shlex_split line = Ok ("docker" :: args) ->
  length args = 0%nat \/ length args = 2%nat ->
  (process_type host = Some "CommandLineTool" ->
   respond host line = Ok ("Incorrect number of arguments", []))
  /\ (process_type host <> Some "CommandLineTool" ->
      respond host line
      = Ok (("Can only do this on CommandLineTool: This is "
             ++ str_of_opt (process_type host))%string, [])).
Proof.
  intros Hsplit Hlen. unfold respond. rewrite Hsplit. cbn [bind].
  change (assoc_get "docker" dispatch_table)
    with (Some (mkEntry [] "docker <docker_image> : Add DockerRequirement to CLT"
                        docker_scaffold_handler)).
  cbn [call run_handler]. unfold docker_scaffold, only_clt.
  split.
  - intros ->. 
    destruct args as [|a [|b [|c t]]]; simpl in Hlen;
      try (destruct Hlen; discriminate); reflexivity.
  - intros Hty.
    destruct (process_type host) as [ty|]; [|reflexivity].
    destruct (string_dec ty "CommandLineTool") as [->|Hne]; [congruence|].
    assert (E : (match ty with
                 | "CommandLineTool" => docker_scaffold_body host args
                 | _ => returns ("Can only do this on CommandLineTool: This is "
                                 ++ str_of_opt (Some ty))
                 end) = returns ("Can only do this on CommandLineTool: This is "
                                 ++ str_of_opt (Some ty))).
    { clear -Hne.
      repeat (match goal with
              | |- context [match ?x with _ => _ end] =>
                  is_var x; destruct x; try reflexivity
              end);
      exfalso; apply Hne; reflexivity. }
    rewrite E. reflexivity.
Qed.

(** A host of the given process type none of whose services is
    available. *)
Definition bare_host (ty : option string) : Host :=
  mkHost ty
         (fun _ _ _ _ => Raise (OtherError "no document"))
         (fun _ _ => Raise (OtherError "no platform"))
         (Raise (OtherError "no configuration"))
         (fun _ => false)
         (fun _ => Raise (OtherError "no file"))
         (fun _ => Raise (OtherError "no document"))
         (fun _ _ _ _ => Raise (OtherError "no model")).

Lemma docker_wrong_argument_count_witness :
  respond (bare_host (Some "CommandLineTool")) "docker ubuntu:18.04 latest"
  = Ok ("Incorrect number of arguments", []).
Proof.
  apply (proj1 (docker_wrong_argument_count
                  (bare_host (Some "CommandLineTool"))
                  "docker ubuntu:18.04 latest" ["ubuntu:18.04"; "latest"]
                  eq_refl (or_intror eq_refl))).
  reflexivity.
Defined.

(** C6, as the spec words it, fails: [docker] without arguments on a
    Workflow is not answered with the argument-count message. *)
Lemma docker_on_workflow_other_response :
  respond (bare_host (Some "Workflow")) "docker"
  = Ok ("Can only do this on CommandLineTool: This is Workflow", [])
  /\ respond (bare_host (Some "Workflow")) "docker"
     <> Ok ("Incorrect number of arguments", []).
Proof. split; [reflexivity | vm_compute; discriminate]. Qed.

(** X14. [docker] with one argument on a CommandLineTool: the edit built
    by [insert_into_lom] for the [requirements] section, key
    [DockerRequirement], key field [class] and entry
    "dockerPull: {image}" is the one edit proposed, and the response is
    "Added DockerRequirement". *)
Lemma docker_one_argument host line image edit :
  shlex_split line = Ok ["docker"; image] ->
  process_type host = Some "CommandLineTool" ->
  insert_into_lom host ["requirements"] "DockerRequirement" "class"
    ("dockerPull: " ++ image ++ nl) = Ok edit ->
  respond host line = Ok ("Added DockerRequirement", [edit]).
Proof.
  intros Hsplit Hty Hins. unfold respond. rewrite Hsplit. cbn [bind].
  change (assoc_get "docker" dispatch_table)
    with (Some (mkEntry [] "docker <docker_image> : Add DockerRequirement to CLT"
                        docker_scaffold_handler)).
  cbn [call run_handler]. unfold docker_scaffold, only_clt.
  rewrite Hty. unfold docker_scaffold_body. rewrite Hins. reflexivity.
Qed.

(** *** History *)

(** C7. On a fresh console (history [[""]], cursor 0), after "foo" and
    then "bar" have been submitted: two presses of the up key leave
    "foo" in the field, one press of the down key from there shows
    "bar", and one more wraps to the empty first entry. *)
Theorem history_navigation_wraps (host : Host) :
  history (command_line CommandWidget_init) = [""]
  /\ history_n (command_line CommandWidget_init) = 0%Z
  /\ exists w1 w2,
      submit host "foo" CommandWidget_init = Ok w1
      /\ submit host "bar" w1 = Ok w2
      /\ history (command_line w2) = [""; "foo"; "bar"]
      /\ history_n (command_line w2) = 3%Z
      /\ text (command_line (press Key_Up (press Key_Up w2))) = "foo"
      /\ text (command_line
                 (press Key_Down (press Key_Up (press Key_Up w2)))) = "bar"
      /\ text (command_line
                 (press Key_Down
                    (press Key_Down (press Key_Up (press Key_Up w2))))) = "".
Proof.
  split; [reflexivity|]. split; [reflexivity|].
  eexists _, _. split; [reflexivity|]. split; [reflexivity|].
  repeat split.
Qed.

(** X15. With a history that is not empty and a cursor between -1 and the
    length of the history, a navigation key leaves the cursor on an entry
    of the history. *)
Lemma keyPressEvent_cursor_in_range (self : CommandLine) (k : key) :
  history self <> [] ->
  (k = Key_Up \/ k = Key_Down) ->
  (-1 <= history_n self <= len (history self))%Z ->
  (0 <= history_n (keyPressEvent self k) < len (history self))%Z.
Proof.
  intros Hne Hk Hrange.
  assert (Hpos : (0 < len (history self))%Z).
  { unfold len. destruct (history self); [congruence|]. simpl length. lia. }
  destruct Hk as [-> | ->]; unfold keyPressEvent, show_history; cbn [history history_n].
  - destruct (history_n self - 1 <? 0)%Z eqn:E;
      [apply Z.ltb_lt in E | apply Z.ltb_ge in E];
      match goal with
      | |- context [if ?c then _ else _] => destruct c
      end; cbn [history_n]; lia.
  - destruct (history_n self + 1 >? len (history self) - 1)%Z eqn:E;
      [apply Z.gtb_lt in E | rewrite Z.gtb_ltb in E; apply Z.ltb_ge in E];
      match goal with
      | |- context [if ?c then _ else _] => destruct c
      end; cbn [history_n]; lia.
Qed.

End ConsoleFacts.

(* ===================================================================== *)
(** ** Properties of the tabbed shell                                    *)
(* ===================================================================== *)

Module MainWidgetFacts.
Import Py MainWidget.

(** A [for ... else] whose body never leaves through [break] always runs
    its [else] part. *)
Lemma for_else_no_break {S A} (items : list A) (step : S -> A -> S)
    (orelse : S -> S) (s : S) :
  for_else items (fun s x => (step s x, false)) orelse s
  = orelse (fold_left step items s).
Proof.
  revert s. induction items as [|x items IH]; intros s; simpl; [reflexivity|].
  apply IH.
Qed.

(** The loop of [open_document] moves the current index only. *)
Lemma refocus_keeps_tabs (bw : widget) (idxs : list nat) (s : BentenMainWidget) :
  let step := fun s idx =>
                match widget_at s idx with
                | Some w => if Nat.eqb w bw then setCurrentIndex s idx else s
                | None => s
                end in
  tabs (fold_left step idxs s) = tabs s
  /\ connections (fold_left step idxs s) = connections s
  /\ multi_document_manager (fold_left step idxs s) = multi_document_manager s.
Proof.
  cbv zeta. revert s. induction idxs as [|i idxs IH]; intros s; simpl; [auto|].
  destruct (IH (match widget_at s i with
                | Some w => if Nat.eqb w bw then setCurrentIndex s i else s
                | None => s
                end)) as (Ht & Hc & Hm).
  rewrite Ht, Hc, Hm.
  destruct (widget_at s i) as [w|]; [|auto].
  destruct (Nat.eqb w bw); [|auto].
  unfold setCurrentIndex. destruct (i <? count s)%nat; auto.
Qed.

Lemma set_tip_last (l : list tab) (t : tab) (tip : string) :
  set_tip (l ++ [t]) (length l) tip
  = l ++ [mkTab (page t) (label t) tip (close_buttons t)].
Proof.
  induction l as [|x l IH]; simpl; [reflexivity|]. rewrite IH. reflexivity.
Qed.

Definition tab_name_of (inline_path : option (list string)) : string :=
  match inline_path with
  | None | Some [] => "root"
  | Some p => str_join "." p
  end.

(** The shell after [open_document], field by field: the tabs of the
    other widgets in their order, then the tab of the requested view,
    which is the current one; two more signal connections. *)
Lemma open_document_shape (s : BentenMainWidget) (parent_path : string)
    (inline_path : option (list string)) :
  let opened := open_window (multi_document_manager s) parent_path inline_path in
  let kept := remove_page (fst opened) (tabs s) in
  open_document s parent_path inline_path
  = mkShell (snd opened)
            (kept ++ [mkTab (fst opened) (tab_name_of inline_path)
                            (parent_path ++ "#" ++ tab_name_of inline_path)
                            (negb (Nat.eqb (length kept) 0))])
            (Z.of_nat (length kept))
            (connections s ++ [(fst opened, scene_double_clicked_signal);
                               (fst opened, edit_registered_signal)]).
Proof.
  cbv zeta. unfold open_document.
  destruct (open_window (multi_document_manager s) parent_path inline_path)
    as [bw mgr]. cbn [fst snd].
  rewrite for_else_no_break.
  match goal with
  | |- context [fold_left ?f ?l ?s0] =>
      destruct (refocus_keeps_tabs bw l s0) as (Ht & Hc & Hm);
      cbv zeta in Ht, Hc, Hm;
      set (s1 := fold_left f l s0) in *
  end.
  cbn [tabs connections multi_document_manager] in Ht, Hc, Hm.
  clearbody s1.
  unfold setCurrentIndex, setTabToolTip, addTab, connect, count.
  cbn [tabs connections multi_document_manager currentIndex fst snd].
  rewrite Ht, Hc, Hm, set_tip_last, length_app. cbn [length page label close_buttons].
  replace (length (remove_page bw (tabs s))
           <? length (remove_page bw (tabs s)) + 1)%nat with true
    by (symmetry; apply Nat.ltb_lt; lia).
  cbn [tabs]. rewrite length_app, <- app_assoc. cbn [length app].
  unfold tab_name_of, _make_base_tab_unclosable.
  cbn [tabs connections multi_document_manager currentIndex].
  destruct (remove_page bw (tabs s)) as [|t kept]; cbn [length app Nat.add].
  - reflexivity.
  - replace (S (length kept + 1)) with (S (S (length kept))) by lia.
    reflexivity.
Qed.

(** *** The document manager *)




(** *** Pages *)







Definition wf_path : string := "/work/wf.cwl".


(** Each call connects the two signals of the view again, also when the
    view already has a tab. *)
Lemma open_document_twice_connects_twice :
  let s1 := open_document BentenMainWidget_init wf_path (Some ["align"]) in
  let s2 := open_document s1 wf_path (Some ["align"]) in
  tabs s2 = [mkTab 0 "align" "/work/wf.cwl#align" false]
  /\ connections s2 = [(0%nat, scene_double_clicked_signal);
                       (0%nat, edit_registered_signal);
                       (0%nat, scene_double_clicked_signal);
                       (0%nat, edit_registered_signal)].
Proof. vm_compute. split; reflexivity. Qed.

End MainWidgetFacts.

(* ===================================================================== *)
(** ** Further properties of the workflow model                          *)
(* ===================================================================== *)

Module WorkflowExtras.
Import Py WorkflowModel WorkflowFacts.

(** *** Ordered dictionaries *)

Lemma assoc_get_In {V} (k : string) (d : list (string * V)) (v : V) :
  assoc_get k d = Some v -> In (k, v) d.
Proof.
  induction d as [|[k' v'] d IH]; simpl; [discriminate|].
  destruct (String.eqb_spec k' k) as [->|Hne].
  - intros [= ->]. left. reflexivity.
  - intros H. right. auto.
Qed.

Lemma assoc_set_In {V} (k : string) (v : V) (d : list (string * V)) kv :
  In kv (assoc_set k v d) -> kv = (k, v) \/ In kv d.
Proof.
  induction d as [|[k' v'] d IH]; simpl.
  - intros [<-|[]]. left. reflexivity.
  - destruct (String.eqb_spec k' k) as [->|Hne]; simpl.
    + intros [<-|H]; [left; reflexivity | right; right; exact H].
    + intros [<-|H]; [right; left; reflexivity|].
      destruct (IH H) as [->|H']; [left; reflexivity | right; right; exact H'].
Qed.

Lemma assoc_set_key_In {V} (k : string) (v : V) (d : list (string * V)) k0 :
  In k0 (map fst (assoc_set k v d)) -> k0 = k \/ In k0 (map fst d).
Proof.
  intros H. apply in_map_iff in H. destruct H as ([k1 v1] & <- & Hin).
  destruct (assoc_set_In _ _ _ _ Hin) as [[= -> ->]|H']; [left; reflexivity|].
  right. apply in_map_iff. exists (k1, v1). split; [reflexivity | exact H'].
Qed.

Lemma assoc_set_NoDup {V} (k : string) (v : V) (d : list (string * V)) :
  NoDup (map fst d) -> NoDup (map fst (assoc_set k v d)).
Proof.
  induction d as [|[k' v'] d IH]; simpl; intros Hnd.
  - constructor; [intros [] | constructor].
  - inversion Hnd as [|? ? Hnotin Hnd']; subst.
    destruct (String.eqb_spec k' k) as [->|Hne]; simpl.
    + constructor; assumption.
    + constructor; [|auto].
      intros Hin. destruct (assoc_set_key_In _ _ _ _ Hin) as [->|H'];
        [apply Hne; reflexivity | apply Hnotin; exact H'].
Qed.

Lemma fold_assoc_set {V} (l acc : list (string * V)) :
  NoDup (map fst acc) ->
  NoDup (map fst (fold_left (fun d kv => assoc_set (fst kv) (snd kv) d) l acc))
  /\ forall kv,
      In kv (fold_left (fun d kv => assoc_set (fst kv) (snd kv) d) l acc) ->
      In kv acc \/ In kv l.
Proof.
  revert acc. induction l as [|[k v] l IH]; intros acc Hnd; simpl.
  - split; [exact Hnd | auto].
  - destruct (IH (assoc_set k v acc) (assoc_set_NoDup k v acc Hnd)) as [H1 H2].
    split; [exact H1|].
    intros kv Hin. destruct (H2 kv Hin) as [H|H]; [|right; right; exact H].
    destruct (assoc_set_In _ _ _ _ H) as [->|H']; [right; left; reflexivity|].
    left. exact H'.
Qed.

(** An ordered dictionary built from pairs has no key twice, and holds
    only pairs it was given. *)
Lemma assoc_of_pairs_spec {V} (l : list (string * V)) :
  NoDup (map fst (assoc_of_pairs l))
  /\ forall kv, In kv (assoc_of_pairs l) -> In kv l.
Proof.
  unfold assoc_of_pairs.
  destruct (fold_assoc_set l [] (NoDup_nil _)) as [H1 H2].
  split; [exact H1|]. intros kv Hin. destruct (H2 kv Hin) as [[]|H]. exact H.
Qed.

Lemma mapM_Ok_Forall {A B} (f : A -> result B) (P : B -> Prop) (l : list A) bs :
  (forall a b, f a = Ok b -> P b) -> mapM f l = Ok bs -> Forall P bs.
Proof.
  intros Hf. revert bs. induction l as [|a l IH]; simpl; intros bs.
  - intros [= <-]. constructor.
  - destruct (f a) as [b|e] eqn:Ea; simpl; [|discriminate].
    destruct (mapM f l) as [bs'|e]; simpl; [|discriminate].
    intros [= <-]. constructor; [eapply Hf; eauto | apply IH; reflexivity].
Qed.

(** *** Ports and connections *)

Lemma Port_eq_spec (p q : Port) :
  Port_eq p q = true <-> node_id p = node_id q /\ port_id p = port_id q.
Proof.
  unfold Port_eq. rewrite andb_true_iff, opt_str_eqb_eq, String.eqb_eq. tauto.
Qed.

(** X1. Port equality is an equivalence relation: reflexive, symmetric
    and transitive. *)
Theorem Port_eq_equivalence :
  (forall p, Port_eq p p = true)
  /\ (forall p q, Port_eq p q = Port_eq q p)
  /\ (forall p q r, Port_eq p q = true -> Port_eq q r = true ->
                    Port_eq p r = true).
Proof.
  split; [|split].
  - intros p. apply Port_eq_spec. auto.
  - intros p q. destruct (Port_eq q p) eqn:E.
    + apply Port_eq_spec. apply Port_eq_spec in E. destruct E; auto.
    + destruct (Port_eq p q) eqn:E'; [|reflexivity].
      apply Port_eq_spec in E'. destruct E' as [H1 H2].
      assert (Port_eq q p = true) by (apply Port_eq_spec; auto). congruence.
  - intros p q r H1 H2. apply Port_eq_spec in H1, H2. apply Port_eq_spec.
    destruct H1, H2. split; congruence.
Qed.

(** X2. Two connections are equal exactly when their source ports agree
    in owner and id and their sink ports agree in owner and id; none of
    the three line ranges takes part. *)
Theorem Connection_eq_endpoints (c d : Connection) :
  Connection_eq c d = true
  <-> (node_id (src c) = node_id (src d) /\ port_id (src c) = port_id (src d))
      /\ (node_id (dst c) = node_id (dst d) /\ port_id (dst c) = port_id (dst d)).
Proof.
  unfold Connection_eq. rewrite andb_true_iff, !Port_eq_spec. tauto.
Qed.

Lemma find_first {A} (f : A -> bool) (l : list A) (x : A) :
  find f l = Some x ->
  exists before after,
    l = before ++ x :: after
    /\ Forall (fun y => f y = false) before /\ f x = true.
Proof.
  induction l as [|y l IH]; cbn; [discriminate|].
  destruct (f y) eqn:Ey.
  - intros [= ->]. exists [], l. repeat split; [constructor | exact Ey].
  - intros H. destruct (IH H) as (before & after & -> & Hb & Hx).
    exists (y :: before), after. repeat split; [constructor; assumption | exact Hx].
Qed.

(** X3. [find_connection] answers with the line of the first connection
    equal to the one asked for: when it returns a line, the connections
    of the workflow split into some that are all unequal to the argument,
    then a connection equal to it that has this line, then the rest; when
    it returns nothing, either no connection is equal to the argument, or
    they split in the same way around a first equal connection that has
    no line. *)
Theorem find_connection_sound (wf : Workflow) (conn : Connection) :
  match find_connection wf conn with
  | Some l =>
      exists before c after,
        connections wf = before ++ c :: after
        /\ Forall (fun c' => Connection_eq c' conn = false) before
        /\ Connection_eq c conn = true
        /\ conn_line c = Some l
  | None =>
      Forall (fun c => Connection_eq c conn = false) (connections wf)
      \/ exists before c after,
          connections wf = before ++ c :: after
          /\ Forall (fun c' => Connection_eq c' conn = false) before
          /\ Connection_eq c conn = true
          /\ conn_line c = None
  end.
Proof.
  unfold find_connection.
  destruct (find (fun c => Connection_eq c conn) (connections wf)) as [c|] eqn:E.
  - destruct (find_first _ _ _ E) as (before & after & Hl & Hb & Hc).
    destruct (conn_line c) as [l|] eqn:El.
    + exists before, c, after. auto.
    + right. exists before, c, after. auto.
  - left. apply Forall_forall. intros c Hin.
    exact (find_none _ _ E c Hin).
Qed.

(** *** Steps *)

Ltac inv_bind_as H x :=
  match type of H with
  | bind ?c _ = Ok _ =>
      let E := fresh "E" in
      destruct c as [x|] eqn:E; [cbn [bind] in H | discriminate H]
  end.

Ltac inv_bind H := let x := fresh "x" in inv_bind_as H x.

Definition no_run_problem (step_id : string) : string :=
  "step " ++ step_id ++ " has no run field".

Definition not_found_problem (fs : FileSystem) (doc : CwlDoc) (r : string)
  : string :=
  "Could not find sub workflow: " ++ r ++ " (resolved to "
  ++ as_uri fs (resolve fs (path doc) r) ++ ")".

Definition inline_path_of (doc : CwlDoc) (step_id : string) : list string :=
  match inline_path doc with Some ip => ip | None => [] end ++ [step_id].

(** The ways [from_doc] returns. *)
Lemma from_doc_inv fs step_id ln doc errs step errs' :
  from_doc fs step_id ln doc errs = Ok (step, errs') ->
  (step = mkStep ln step_id (mkPortMap PlainDict []) (mkPortMap PlainDict [])
                 InvalidSub_instance
   /\ errs' = errs ++ [no_run_problem step_id])
  \/ exists run proc sub sinks sources,
      run_target_ports step_id proc "inputs" = Ok sinks
      /\ run_target_ports step_id proc "outputs" = Ok sources
      /\ step = mkStep ln step_id (mkPortMap OrderedDict sinks)
                       (mkPortMap OrderedDict sources) sub
      /\ match run with
         | VStr r =>
             (read_cwl fs (resolve fs (path doc) r) = Ok proc
              /\ sub = ExternalSub (resolve fs (path doc) r) /\ errs' = errs)
             \/ (proc = VDict [] /\ sub = InvalidSub_class
                 /\ errs' = errs ++ [not_found_problem fs doc r])
         | _ => proc = run /\ sub = InlineSub (path doc) (inline_path_of doc step_id)
                /\ errs' = errs
         end.
Proof.
  intros H. unfold from_doc in H.
  inv_bind H. inv_bind H. inv_bind H.
  match type of H with (if ?b then _ else _) = _ => destruct b end.
  - left. injection H as <- <-. split; reflexivity.
  - right. inv_bind_as H run. exists run.
    destruct run as [| | |r| | | |];
      try (cbn [bind] in H; inv_bind H; inv_bind H; injection H as <- <-;
           eexists _, _, _, _; repeat split; eassumption).
    destruct (read_cwl fs (resolve fs (path doc) r)) as [sp|e] eqn:Er.
    + cbn [bind] in H. inv_bind H. inv_bind H. injection H as <- <-.
      eexists _, _, _, _. repeat split; try eassumption. left. auto.
    + destruct e; try discriminate H.
      cbn [bind] in H. inv_bind H. inv_bind H. injection H as <- <-.
      eexists _, _, _, _. repeat split; try eassumption. right. auto.
Qed.

Lemma run_target_ports_empty step_id sec :
  run_target_ports step_id (VDict []) sec = Ok [].
Proof. reflexivity. Qed.

(** X4. A step whose body has no [run] field: [from_doc] returns a step
    with empty sink and source maps and an Invalid reference, and appends
    exactly the problem "step {id} has no run field". *)
Theorem from_doc_without_run fs step_id ln doc errs steps_sec s e fields :
  getitem (cwl_dict doc) "steps" = Ok steps_sec ->
  getitem steps_sec step_id = Ok (CWLMap s e fields) ->
  assoc_get "run" fields = None ->
  exists step,
    from_doc fs step_id ln doc errs
    = Ok (step, errs ++ [("step " ++ step_id ++ " has no run field")%string])
    /\ entries (available_sinks step) = []
    /\ entries (available_sources step) = []
    /\ isinstance_InvalidSub (sub_workflow step) = true.
Proof.
  intros Hs Hd Hr. eexists. split.
  - unfold from_doc. rewrite Hs. cbn [bind]. rewrite Hd. cbn [bind].
    unfold contains, assoc_mem. rewrite Hr. cbn [bind negb]. reflexivity.
  - repeat split.
Qed.

Definition doc_with_bare_step : CwlDoc :=
  mkCwlDoc
    (CWLMap 0 6 [("class", VStr "Workflow");
                 ("steps",
                  CWLMap 4 6 [("sort", CWLMap 5 6 [("in", CWLMap 6 6 [])])])])
    "/work/wf.cwl" None.

Lemma from_doc_without_run_witness :
  exists step,
    from_doc no_files "sort" (5, 6)%Z doc_with_bare_step ["'inputs' missing"]
    = Ok (step, ["'inputs' missing"; "step sort has no run field"])
    /\ entries (available_sinks step) = []
    /\ entries (available_sources step) = []
    /\ isinstance_InvalidSub (sub_workflow step) = true.
Proof.
  exact (from_doc_without_run no_files "sort" (5, 6)%Z doc_with_bare_step
           ["'inputs' missing"]
           (CWLMap 4 6 [("sort", CWLMap 5 6 [("in", CWLMap 6 6 [])])])
           5%Z 6%Z [("in", CWLMap 6 6 [])] eq_refl eq_refl eq_refl).
Defined.

(** X5. Whenever [from_doc] returns, the reference it stored tells the
    rest: an Inline reference carries the document's own path and the
    document's inline path extended by the step id, an External one the
    path the [run] text resolved to, a file that was read, and in both
    cases the problem list is unchanged; any other reference comes with
    empty sink and source maps and exactly one added problem. *)
Theorem from_doc_reference fs step_id ln doc errs step errs' :
  from_doc fs step_id ln doc errs = Ok (step, errs') ->
  match sub_workflow step with
  | InlineSub p ip =>
      p = path doc
      /\ ip = match inline_path doc with Some i => i | None => [] end ++ [step_id]
      /\ errs' = errs
  | ExternalSub p =>
      errs' = errs
      /\ exists r proc, p = resolve fs (path doc) r /\ read_cwl fs p = Ok proc
  | InvalidSub_instance | InvalidSub_class =>
      entries (available_sinks step) = []
      /\ entries (available_sources step) = []
      /\ exists problem, errs' = errs ++ [problem]
  end.
Proof.
  intros H. apply from_doc_inv in H.
  destruct H as [[-> ->] | (run & proc & sub & sinks & sources & Hi & Ho & -> & Hc)].
  - cbn. repeat split. eexists; reflexivity.
  - cbn [sub_workflow available_sinks available_sources entries].
    destruct run as [| | |r| | | |];
      try (destruct Hc as (_ & -> & ->); repeat split).
    destruct Hc as [(Hr & -> & ->) | (-> & -> & ->)].
    + split; [reflexivity|]. eexists _, _. split; [reflexivity | exact Hr].
    + rewrite run_target_ports_empty in Hi, Ho.
      injection Hi as <-. injection Ho as <-.
      repeat split. eexists; reflexivity.
Qed.

Lemma from_doc_reference_witness :
  exists step,
    from_doc no_files "qc" (5, 9)%Z doc_with_embedded_tool ["earlier"]
    = Ok (step, ["earlier"])
    /\ match sub_workflow step with
       | InlineSub p ip =>
           p = "/work/wf.cwl" /\ ip = ["qc"] /\ ["earlier"] = ["earlier"]
       | _ => False
       end.
Proof.
  eexists. split; [reflexivity|].
  exact (from_doc_reference no_files "qc" (5, 9)%Z doc_with_embedded_tool
           ["earlier"] _ ["earlier"] eq_refl).
Defined.

(** The ids of a list, each at the place of its first occurrence. *)
Fixpoint first_occurrences (ids : list string) : list string :=
  match ids with
  | [] => []
  | k :: l => k :: filter (fun k' => negb (String.eqb k' k)) (first_occurrences l)
  end.






Section Keyed.
Context {V : Type}.
Variable f : string -> V.




End Keyed.







Lemma first_occurrences_example :
  first_occurrences ["report"; "log"; "report"] = ["report"; "log"].
Proof. reflexivity. Qed.

(** *** Connections *)

Lemma for_pairs_inv {S : Type} (I : S -> Prop)
    (turns : list (result (value * value)))
    (body : S -> value * value -> result S) (s s' : S) :
  (forall st kv st', I st -> body st kv = Ok st' -> I st') ->
  I s -> for_pairs turns body s = Ok s' -> I s'.
Proof.
  intros Hbody. revert s. induction turns as [|r turns IH]; intros s Hs H.
  - injection H as <-. exact Hs.
  - cbn [for_pairs] in H. inv_bind H. inv_bind H. eauto.
Qed.


Section Derivation.
Variable wf_inputs : list (string * Port).
Variable wf_outputs : list (string * Port).
Variable wf_steps : list (string * Step).
Variable problems0 : list string.

(** A port a connection may start from: a workflow input, or one of the
    sources of a step. *)
Definition known_source (p : Port) : Prop :=
  (exists k, In (k, p) wf_inputs)
  \/ (exists sid st k, In (sid, st) wf_steps
                       /\ In (k, p) (entries (available_sources st))).

(** A port a connection may end in: a workflow output, or one of the
    sinks of a step. *)
Definition known_sink (p : Port) : Prop :=
  (exists k, In (k, p) wf_outputs)
  \/ (exists sid st k, In (sid, st) wf_steps
                       /\ In (k, p) (entries (available_sinks st))).

Definition well_joined (c : Connection) : Prop :=
  known_source (src c) /\ known_sink (dst c) /\ conn_line c <> None.

(** What the derivation loops keep: the connections so far are well
    joined, and the problems so far extend the ones the derivation
    started with. *)
Definition derivation_inv (acc : list Connection * list string) : Prop :=
  Forall well_joined (fst acc) /\ exists more, snd acc = problems0 ++ more.

Lemma get_source_known v p :
  _get_source wf_inputs wf_steps v = Ok p -> known_source p.
Proof.
  destruct v as [| | |s| | | |]; cbn [_get_source]; try discriminate.
  - destruct (String.eqb s ""); [discriminate|].
    destruct (str_contains "/" s).
    + unfold _get_step_source.
      destruct (str_split "/" s) as [|a [|b [|c t]]]; try discriminate.
      destruct (assoc_get a wf_steps) as [st|] eqn:Ea; [|discriminate].
      destruct (assoc_get b (entries (available_sources st))) as [q|] eqn:Eb;
        [|discriminate].
      intros [= <-]. right. exists a, st, b.
      split; apply assoc_get_In; assumption.
    + destruct (assoc_get s wf_inputs) as [q|] eqn:Es; [|discriminate].
      intros [= <-]. left. exists s. apply assoc_get_In. exact Es.
  - destruct (existsb _ l); discriminate.
  - destruct (assoc_mem "/" d); discriminate.
Qed.

Lemma inv_add_problem acc m :
  derivation_inv acc -> derivation_inv (fst acc, snd acc ++ [m]).
Proof.
  intros [Hc [more Hp]]. split; [exact Hc|].
  exists (more ++ [m]). cbn [snd]. rewrite Hp, app_assoc. reflexivity.
Qed.

Lemma connect_sources_keeps srcs sink ml who acc acc' :
  known_sink sink -> derivation_inv acc ->
  connect_sources wf_inputs wf_steps srcs sink ml who acc = Ok acc' ->
  derivation_inv acc'.
Proof.
  intros Hsink. revert acc. induction srcs as [|v srcs IH]; intros acc Hacc H.
  - injection H as <-. exact Hacc.
  - cbn [connect_sources] in H.
    destruct (_get_source wf_inputs wf_steps v) as [p|e] eqn:Ev; cbn [bind] in H.
    + destruct ml as [l|e]; cbn [bind] in H.
      * apply IH in H; [exact H|]. destruct Hacc as [Hc Hp].
        split; [|exact Hp]. cbn [fst]. apply Forall_app. split; [exact Hc|].
        constructor; [|constructor]. split; [|split].
        -- exact (get_source_known _ _ Ev).
        -- exact Hsink.
        -- discriminate.
      * destruct e; try discriminate H.
        apply IH in H; [exact H|]. apply inv_add_problem. exact Hacc.
    + destruct e; try discriminate H.
      apply IH in H; [exact H|]. apply inv_add_problem. exact Hacc.
Qed.

Lemma connect_step_port_keeps step_doc sid this_step acc kv acc' :
  In (sid, this_step) wf_steps -> derivation_inv acc ->
  connect_step_port wf_inputs wf_steps step_doc this_step acc kv = Ok acc' ->
  derivation_inv acc'.
Proof.
  intros Hstep Hacc H. unfold connect_step_port in H.
  inv_bind_as H sink_id.
  destruct (assoc_get sink_id (entries (available_sinks this_step)))
    as [sink|] eqn:Es.
  - assert (Hsink : known_sink sink).
    { right. exists sid, this_step, sink_id. split; [exact Hstep|].
      apply assoc_get_In. exact Es. }
    destruct (snd kv) as [| | |s|l|d|a b items|a b [|] elems];
      try (injection H as <-; apply inv_add_problem; exact Hacc);
      try (inv_bind H; inv_bind H;
           eapply connect_sources_keeps; eassumption);
      (inv_bind_as H has_source; destruct has_source;
       [ inv_bind H; inv_bind H; eapply connect_sources_keeps; eassumption
       | injection H as <-; exact Hacc ]).
  - injection H as <-. apply inv_add_problem. exact Hacc.
Qed.

Lemma connect_step_keeps acc kv acc' :
  derivation_inv acc ->
  connect_step wf_inputs wf_steps acc kv = Ok acc' -> derivation_inv acc'.
Proof.
  intros Hacc H. unfold connect_step in H. inv_bind_as H step_id.
  destruct (snd kv) as [| | | | | |a b items|];
    try (injection H as <-; apply inv_add_problem; exact Hacc).
  destruct (assoc_get step_id wf_steps) as [st|] eqn:Est;
    cbn [bind] in H; [|discriminate].
  inv_bind H. inv_bind H.
  eapply for_pairs_inv; [|exact Hacc|exact H].
  intros st0 kv0 st0' Hst0 Hbody.
  eapply connect_step_port_keeps; [|exact Hst0|exact Hbody].
  apply assoc_get_In. exact Est.
Qed.

Lemma connect_output_keeps acc kv acc' :
  derivation_inv acc ->
  connect_output wf_inputs wf_steps wf_outputs acc kv = Ok acc' ->
  derivation_inv acc'.
Proof.
  intros Hacc H. unfold connect_output in H. inv_bind_as H out_id.
  destruct (assoc_get out_id wf_outputs) as [sink|] eqn:Es;
    cbn [bind] in H; [|discriminate].
  inv_bind_as H has_source. destruct has_source.
  - inv_bind H. eapply connect_sources_keeps; [|exact Hacc|exact H].
    left. exists out_id. apply assoc_get_In. exact Es.
  - injection H as <-. exact Hacc.
Qed.

Lemma list_connections_keeps doc conns problems' :
  _list_connections doc wf_inputs wf_outputs wf_steps problems0
  = Ok (conns, problems') ->
  derivation_inv (conns, problems').
Proof.
  intros H. unfold _list_connections in H.
  inv_bind H. inv_bind H. inv_bind_as H acc. inv_bind H. inv_bind H.
  eapply for_pairs_inv; [| |exact H].
  - intros st kv st'. apply connect_output_keeps.
  - eapply for_pairs_inv; [| |exact E1].
    + intros st kv st'. apply connect_step_keeps.
    + split; [constructor|]. exists []. cbn [snd]. rewrite app_nil_r. reflexivity.
Qed.

End Derivation.

(** *** The constructor *)

Lemma Workflow_init_inv fs doc wf :
  Workflow_init fs doc = Ok wf ->
  exists problems sec_lines ins outs steps_sec turns problems1,
    foldM (check_section (cwl_dict doc)) required_sections ([], [])
    = Ok (problems, sec_lines)
    /\ get (cwl_dict doc) "inputs" (VDict []) = Ok ins
    /\ _parse_ports ins = Ok (inputs wf)
    /\ get (cwl_dict doc) "outputs" (VDict []) = Ok outs
    /\ _parse_ports outs = Ok (outputs wf)
    /\ get (cwl_dict doc) "steps" (VDict []) = Ok steps_sec
    /\ pairs_of steps_sec = Ok turns
    /\ for_pairs turns (build_step fs doc) ([], problems)
       = Ok (steps wf, problems1)
    /\ _list_connections doc (inputs wf) (outputs wf) (steps wf) problems1
       = Ok (connections wf, problems_with_wf wf)
    /\ wf_doc wf = doc /\ section_lines wf = sec_lines.
Proof.
  intros H. unfold Workflow_init in H.
  inv_bind_as H st. destruct st as [problems sec_lines].
  inv_bind_as H ins. inv_bind_as H wf_inputs.
  inv_bind_as H outs. inv_bind_as H wf_outputs.
  inv_bind_as H steps_sec. inv_bind_as H turns.
  inv_bind_as H st. destruct st as [wf_steps problems1].
  inv_bind_as H st. destruct st as [conns problems2].
  injection H as <-. cbn.
  exists problems, sec_lines, ins, outs, steps_sec, turns, problems1.
  repeat split; assumption.
Qed.

Definition missing_problem (sec : string) : string := "'" ++ sec ++ "' missing".

Lemma check_section_grows d st sec st' :
  check_section d st sec = Ok st' -> exists more, fst st' = fst st ++ more.
Proof.
  unfold check_section. intros H. inv_bind_as H b. destruct b; cbn [negb] in H.
  - destruct (String.eqb sec "inputs" || String.eqb sec "outputs").
    + inv_bind H. inv_bind H. injection H as <-. exists []. cbn.
      rewrite app_nil_r. reflexivity.
    + injection H as <-. exists []. rewrite app_nil_r. reflexivity.
  - injection H as <-. eexists. reflexivity.
Qed.

Lemma check_sections_report d sec l st st' :
  foldM (check_section d) l st = Ok st' ->
  (exists more, fst st' = fst st ++ more)
  /\ (In sec l -> contains sec d = Ok false ->
      In (missing_problem sec) (fst st')).
Proof.
  revert st. induction l as [|a l IH]; intros st H.
  - injection H as <-. split; [exists []; rewrite app_nil_r; reflexivity|].
    intros [].
  - cbn [foldM] in H. inv_bind_as H st1.
    destruct (IH _ H) as [[more Hmore] Hrep].
    destruct (check_section_grows _ _ _ _ E) as [more1 Hmore1].
    split.
    + exists (more1 ++ more). rewrite Hmore, Hmore1, app_assoc. reflexivity.
    + intros [->|Hin] Hc; [|auto].
      unfold check_section in E. rewrite Hc in E. cbn in E.
      injection E as <-. cbn [fst] in Hmore. rewrite Hmore.
      apply in_or_app. left. apply in_or_app. right. left. reflexivity.
Qed.

Lemma build_step_grows fs doc st kv st' :
  build_step fs doc st kv = Ok st' -> exists more, snd st' = snd st ++ more.
Proof.
  unfold build_step. intros H. inv_bind_as H k. inv_bind_as H l.
  inv_bind_as H r. destruct r as [step problems]. injection H as <-.
  cbn [snd]. apply from_doc_inv in E1.
  destruct E1 as [[_ ->] | (run & proc & sub & si & so & _ & _ & _ & Hc)].
  - eexists. reflexivity.
  - destruct run as [| | |r| | | |];
      try (destruct Hc as (_ & _ & ->); exists []; rewrite app_nil_r; reflexivity).
    destruct Hc as [(_ & _ & ->) | (_ & _ & ->)];
      [exists []; rewrite app_nil_r; reflexivity | eexists; reflexivity].
Qed.

Lemma get_missing d k def v :
  contains k d = Ok false -> get d k def = Ok v -> v = def.
Proof.
  destruct d; cbn; try discriminate;
    unfold assoc_mem; destruct (assoc_get k _); congruence.
Qed.

(** X7. When the constructor returns, the problem list names every
    required section the document lacks, as "'{section}' missing", and
    the map of a lacking [inputs], [outputs] or [steps] section is
    empty. *)
Theorem Workflow_init_missing_section fs doc wf sec :
  Workflow_init fs doc = Ok wf ->
  In sec required_sections ->
  contains sec (cwl_dict doc) = Ok false ->
  In ("'" ++ sec ++ "' missing")%string (problems_with_wf wf)
  /\ (sec = "inputs" -> inputs wf = [])
  /\ (sec = "outputs" -> outputs wf = [])
  /\ (sec = "steps" -> steps wf = []).
Proof.
  intros H Hin Hc. apply Workflow_init_inv in H.
  destruct H as (problems & sec_lines & ins & outs & steps_sec & turns
                 & problems1 & Hf & Hi & Hpi & Ho & Hpo & Hs & Ht & Hb & Hl & _).
  split; [|split; [|split]].
  - destruct (check_sections_report _ sec _ _ _ Hf) as [_ Hrep].
    specialize (Hrep Hin Hc). cbn [fst] in Hrep.
    assert (Hgrow1 : exists more, problems1 = problems ++ more).
    { apply (for_pairs_inv
               (fun st => exists more, snd st = problems ++ more)
               turns (build_step fs doc) ([], problems) (steps wf, problems1));
        [| |exact Hb].
      - intros st kv st' [m Hm] Hbs.
        destruct (build_step_grows _ _ _ _ _ Hbs) as [m' Hm'].
        exists (m ++ m'). rewrite Hm', Hm, app_assoc. reflexivity.
      - exists []. cbn. rewrite app_nil_r. reflexivity. }
    destruct Hgrow1 as [m1 ->].
    destruct (list_connections_keeps _ _ _ _ _ _ _ Hl) as [_ [m2 Hm2]].
    cbn [snd] in Hm2. rewrite Hm2.
    apply in_or_app. left. apply in_or_app. left. exact Hrep.
  - intros ->. rewrite (get_missing _ _ _ _ Hc Hi) in Hpi.
    cbn in Hpi. congruence.
  - intros ->. rewrite (get_missing _ _ _ _ Hc Ho) in Hpo.
    cbn in Hpo. congruence.
  - intros ->. rewrite (get_missing _ _ _ _ Hc Hs) in Ht.
    cbn in Ht. injection Ht as <-. cbn in Hb. congruence.
Qed.

(** A workflow without [cwlVersion] and without [outputs]. *)
Definition doc_without_outputs : CwlDoc :=
  mkCwlDoc
    (CWLMap 0 9
       [("class", VStr "Workflow");
        ("inputs", CWLMap 1 2 [("reads", VStr "File")]);
        ("steps",
         CWLMap 3 9
           [("align",
             CWLMap 4 9
               [("run",
                 CWLMap 5 7
                   [("inputs", CWLMap 6 6 [("reads", VStr "File")]);
                    ("outputs", CWLMap 7 7 [("bam", VStr "File")])]);
                ("in", CWLMap 8 9 [("reads", VStr "reads")])])])])
    "/work/wf.cwl" None.

Lemma Workflow_init_missing_section_witness :
  exists wf,
    Workflow_init no_files doc_without_outputs = Ok wf
    /\ In "'outputs' missing" (problems_with_wf wf)
    /\ ("outputs" = "outputs" -> outputs wf = []).
Proof.
  eexists. split; [reflexivity|].
  destruct (Workflow_init_missing_section no_files doc_without_outputs _
              "outputs" eq_refl) as (H1 & _ & H2 & _).
  - cbn. tauto.
  - reflexivity.
  - split; [exact H1 | exact H2].
Defined.

(** X8. When the constructor returns, every connection of the workflow
    starts at a workflow input or at a source of one of the workflow's
    steps, ends in a workflow output or in a sink of one of its steps, and
    carries a line range. *)
Theorem Workflow_init_connections_joined fs doc wf :
  Workflow_init fs doc = Ok wf ->
  Forall (well_joined (inputs wf) (outputs wf) (steps wf)) (connections wf).
Proof.
  intros H. apply Workflow_init_inv in H.
  destruct H as (problems & sec_lines & ins & outs & steps_sec & turns
                 & problems1 & _ & _ & _ & _ & _ & _ & _ & _ & Hl & _).
  exact (proj1 (list_connections_keeps _ _ _ _ _ _ _ Hl)).
Qed.

Lemma Workflow_init_connections_joined_witness :
  exists wf,
    Workflow_init no_files doc_without_outputs = Ok wf
    /\ length (connections wf) = 1%nat
    /\ Forall (well_joined (inputs wf) (outputs wf) (steps wf)) (connections wf).
Proof.
  eexists. split; [reflexivity|]. split; [reflexivity|].
  exact (Workflow_init_connections_joined no_files doc_without_outputs _ eq_refl).
Defined.

(** A map of workflow ports: no id twice, and under each id a port
    without owner, named by that id. *)
Definition keyed_ports (m : list (string * Port)) : Prop :=
  NoDup (map fst m)
  /\ Forall (fun kp => node_id (snd kp) = None /\ port_id (snd kp) = fst kp) m.

Lemma parse_ports_keyed obj l : _parse_ports obj = Ok l -> keyed_ports l.
Proof.
  unfold _parse_ports. intros H.
  inv_bind_as H def_ln. inv_bind_as H pairs. inv_bind_as H a.
  injection H as <-.
  destruct (assoc_of_pairs_spec a) as [Hnd Hsub].
  split; [exact Hnd|].
  apply Forall_forall. intros kp Hin. apply Hsub in Hin.
  assert (HF : Forall (fun kp => node_id (snd kp) = None
                                 /\ port_id (snd kp) = fst kp) a).
  { eapply mapM_Ok_Forall; [|exact E1].
    intros kv b Hb. cbn beta in Hb. inv_bind Hb. inv_bind Hb.
    injection Hb as <-. split; reflexivity. }
  rewrite Forall_forall in HF. auto.
Qed.

Definition keyed_steps (m : list (string * Step)) : Prop :=
  NoDup (map fst m) /\ Forall (fun ks => id (snd ks) = fst ks) m.

Lemma build_step_keyed fs doc st kv st' :
  keyed_steps (fst st) -> build_step fs doc st kv = Ok st' ->
  keyed_steps (fst st').
Proof.
  intros [Hnd Hid] H. unfold build_step in H.
  inv_bind_as H k. inv_bind_as H l.
  inv_bind_as H r. destruct r as [step problems]. injection H as <-.
  cbn [fst]. split; [apply assoc_set_NoDup; exact Hnd|].
  assert (Hk : id step = k).
  { apply from_doc_inv in E1.
    destruct E1 as [[-> _] | (? & ? & ? & ? & ? & _ & _ & -> & _)]; reflexivity. }
  apply Forall_forall. intros ks Hin.
  destruct (assoc_set_In _ _ _ _ Hin) as [->|Hin'].
  - exact Hk.
  - rewrite Forall_forall in Hid. auto.
Qed.

(** X9. When the constructor returns, its three maps are keyed by what
    they hold: no id occurs twice in [inputs], [outputs] or [steps]; the
    port under an id in [inputs] or [outputs] has that id and no owning
    step; the step under an id in [steps] has that id. *)
Theorem Workflow_init_maps_keyed fs doc wf :
  Workflow_init fs doc = Ok wf ->
  keyed_ports (inputs wf) /\ keyed_ports (outputs wf) /\ keyed_steps (steps wf).
Proof.
  intros H. apply Workflow_init_inv in H.
  destruct H as (problems & sec_lines & ins & outs & steps_sec & turns
                 & problems1 & _ & _ & Hpi & _ & Hpo & _ & _ & Hb & _).
  split; [exact (parse_ports_keyed _ _ Hpi)|].
  split; [exact (parse_ports_keyed _ _ Hpo)|].
  apply (for_pairs_inv (fun st => keyed_steps (fst st)) turns
           (build_step fs doc) ([], problems) (steps wf, problems1));
    [| |exact Hb].
  - intros st kv st'. apply build_step_keyed.
  - split; constructor.
Qed.

(** A workflow that lists the step [align] twice, in the sequence form. *)
Definition doc_with_repeated_step : CwlDoc :=
  mkCwlDoc
    (CWLMap 0 9
       [("inputs", CWLMap 1 1 [("reads", VStr "File")]);
        ("outputs", CWLMap 2 2 []);
        ("steps",
         CWLList 3 9 false
           [CWLMap 4 5 [("id", VStr "align"); ("run", VStr "a.cwl")];
            CWLMap 6 7 [("id", VStr "sort"); ("run", VStr "s.cwl")];
            CWLMap 8 9 [("id", VStr "align"); ("run", VStr "b.cwl")]])])
    "/work/wf.cwl" None.

Lemma Workflow_init_maps_keyed_witness :
  exists wf,
    Workflow_init no_files doc_with_repeated_step = Ok wf
    /\ map fst (steps wf) = ["align"; "sort"]
    /\ keyed_ports (inputs wf) /\ keyed_ports (outputs wf)
    /\ keyed_steps (steps wf).
Proof.
  eexists. split; [reflexivity|]. split; [reflexivity|].
  exact (Workflow_init_maps_keyed no_files doc_with_repeated_step _ eq_refl).
Defined.

(** *** The two ways to write a step input *)

Lemma connect_sources_single wf_inputs wf_steps v sink l who acc :
  connect_sources wf_inputs wf_steps [v] sink (Ok l) who acc
  = match _get_source wf_inputs wf_steps v with
    | Ok p => Ok (fst acc ++ [mkConnection (Some l) p sink], snd acc)
    | Raise (WFConnectionError e) =>
        Ok (fst acc, snd acc ++ [(who ++ ": " ++ e)%string])
    | Raise e => Raise e
    end.
Proof.
  cbn [connect_sources].
  destruct (_get_source wf_inputs wf_steps v) as [p|e]; [reflexivity|].
  destruct e; reflexivity.
Qed.

(** Two outcomes of a loop turn that differ at most in the line ranges of
    the connections. *)
Definition same_wiring (r1 r2 : result (list Connection * list string))
  : Prop :=
  match r1, r2 with
  | Ok (c1, p1), Ok (c2, p2) =>
      p1 = p2 /\ Forall2 (fun x y => Connection_eq x y = true) c1 c2
  | Raise e1, Raise e2 => e1 = e2
  | _, _ => False
  end.

Lemma Connection_eq_refl c : Connection_eq c c = true.
Proof.
  unfold Connection_eq. apply andb_true_iff. split; apply Port_eq_spec; auto.
Qed.

Lemma Connection_eq_same_ports l1 l2 p q :
  Connection_eq (mkConnection l1 p q) (mkConnection l2 p q) = true.
Proof. exact (Connection_eq_refl (mkConnection l1 p q)). Qed.

Lemma Forall2_Connection_eq_refl l :
  Forall2 (fun x y => Connection_eq x y = true) l l.
Proof. induction l; constructor; auto using Connection_eq_refl. Qed.

(** X10. A step input written as a bare source text and the same input
    written as a mapping with that text under [source] are wired alike:
    both turns of the loop end the same way, with the same problems and
    with connections equal by source and sink; only the recorded line
    range differs (the range of the [in] section for the first, of the
    entry for the second). *)
Theorem shorthand_and_full_form_agree
    wf_inputs wf_steps step_doc this_step acc sink_id s in_sec l a b :
  getitem step_doc "in" = Ok in_sec ->
  lines_of in_sec = Ok l ->
  same_wiring
    (connect_step_port wf_inputs wf_steps step_doc this_step acc
       (VStr sink_id, VStr s))
    (connect_step_port wf_inputs wf_steps step_doc this_step acc
       (VStr sink_id, CWLMap a b [("source", VStr s)])).
Proof.
  intros Hin Hl. unfold connect_step_port.
  cbn [as_id fst snd bind].
  destruct (assoc_get sink_id (entries (available_sinks this_step))) as [sink|].
  - rewrite Hin. cbn [bind]. rewrite Hl. cbn [bind].
    change (contains "source" (CWLMap a b [("source", VStr s)])) with (Ok true).
    change (getitem (CWLMap a b [("source", VStr s)]) "source") with (Ok (VStr s)).
    cbn [bind lines_of iter_scalar_or_list].
    rewrite !connect_sources_single.
    destruct (_get_source wf_inputs wf_steps (VStr s)) as [p|e].
    + destruct acc as [conns problems]. cbn. split; [reflexivity|].
      apply Forall2_app; [apply Forall2_Connection_eq_refl|].
      constructor; [|constructor]. apply Connection_eq_same_ports.
    + destruct e, acc as [conns problems]; cbn; try reflexivity;
        split; [reflexivity | apply Forall2_Connection_eq_refl].
  - destruct acc as [conns problems]. cbn.
    split; [reflexivity | apply Forall2_Connection_eq_refl].
Qed.

Definition align_step : Step :=
  mkStep (4, 9)%Z "align"
         (mkPortMap OrderedDict
            [("reads", mkPort (Some "align") "reads" None)])
         (mkPortMap OrderedDict [("bam", mkPort (Some "align") "bam" None)])
         (InlineSub "/work/wf.cwl" ["align"]).

Lemma shorthand_and_full_form_agree_witness :
  same_wiring
    (Ok ([mkConnection (Some (8, 9)%Z) reads_port
                       (mkPort (Some "align") "reads" None)], []))
    (Ok ([mkConnection (Some (9, 9)%Z) reads_port
                       (mkPort (Some "align") "reads" None)], [])).
Proof.
  exact (shorthand_and_full_form_agree
           [("reads", reads_port)] [("align", align_step)]
           (CWLMap 4 9 [("in", CWLMap 8 9 [("reads", VStr "reads")])])
           align_step ([], []) "reads" "reads" (CWLMap 8 9 [("reads", VStr "reads")])
           (8, 9)%Z 9%Z 9%Z eq_refl eq_refl).
Defined.


Lemma one_slash_settles_witness :
  settles [("reads", reads_port)] [] (VStr "align/bam").
Proof.
  apply one_slash_settles. cbn. repeat constructor.
Defined.

(** *** Sections *)

(** X25. A sequence section in which some object has no [id] field
    cannot be iterated: [iter_lom] stops at the first such object with
    [KeyError] for [id], after the objects before it, which all have
    one. *)
Theorem iter_lom_object_without_id (before after : list value)
    (d : list (string * value)) :
  Forall (fun e => exists i, getitem e "id" = Ok i) before ->
  assoc_get "id" d = None ->
  iter_lom (VList (before ++ VDict d :: after)) = Raise (KeyError "'id'").
Proof.
  intros Hb Hd. cbn [iter_lom].
  induction Hb as [|e before [i Hi] _ IH]; cbn [app mapM].
  - cbn [getitem]. rewrite Hd. reflexivity.
  - rewrite Hi. cbn [bind]. rewrite IH. reflexivity.
Qed.

Lemma iter_lom_object_without_id_witness :
  iter_lom (VList [VDict [("id", VStr "reads")]; VDict [("type", VStr "File")];
                   VDict [("id", VStr "index")]])
  = Raise (KeyError "'id'").
Proof.
  apply (iter_lom_object_without_id [VDict [("id", VStr "reads")]]
           [VDict [("id", VStr "index")]] [("type", VStr "File")]).
  - apply Forall_cons; [eexists; reflexivity | apply Forall_nil].
  - reflexivity.
Defined.

(** X26. The ports parsed from a line-tracked mapping section all carry
    a line range: the range of the entry's own value when that is a
    mapping or sequence node, and the range of the whole section
    otherwise. *)
Theorem parse_ports_lines (s e : Z) (items : list (string * value))
    (ports : list (string * Port)) :
  _parse_ports (CWLMap s e items) = Ok ports ->
  Forall (fun kp =>
            exists v, In (fst kp, v) items
                      /\ line (snd kp)
                         = Some (match lines_of v with
                                 | Ok l => l
                                 | Raise _ => (s, e)
                                 end)) ports.
Proof.
  unfold _parse_ports. cbn [is_cwl_node lines_of bind iter_pairs pairs_of].
  intros H. inv_bind_as H pairs. inv_bind_as H a. injection H as <-.
  destruct (assoc_of_pairs_spec a) as [_ Hsub].
  apply Forall_forall. intros kp Hin. apply Hsub in Hin. clear Hsub.
  assert (Hpairs : Forall (fun kv => exists k v, kv = (VStr k, v) /\ In (k, v) items)
                          pairs).
  { clear -E. revert pairs E.
    induction items as [|[k v] items IH]; cbn [map mapM]; intros pairs E.
    - injection E as <-. constructor.
    - cbn [bind fst snd] in E. inv_bind_as E rest. injection E as <-.
      constructor.
      + exists k, v. split; [reflexivity | left; reflexivity].
      + specialize (IH _ eq_refl).
        eapply Forall_impl; [|exact IH].
        intros kv (k' & v' & -> & Hin'). exists k', v'.
        split; [reflexivity | right; exact Hin']. }
  clear E. revert a E0 Hin.
  induction Hpairs as [|kv pairs (k & v & -> & Hkv) _ IH]; cbn [mapM];
    intros a Ha Hin.
  - injection Ha as <-. destruct Hin.
  - cbn [bind fst snd as_id] in Ha.
    destruct v; cbn [is_cwl_node lines_of bind] in Ha;
      inv_bind_as Ha rest; injection Ha as <-;
      (destruct Hin as [<-|Hin]; [|eapply IH; [reflexivity | exact Hin]]);
      eexists; (split; [exact Hkv | reflexivity]).
Qed.

Lemma parse_ports_lines_witness :
  Forall (fun kp =>
            exists v, In (fst kp, v)
                         [("reads", VStr "File");
                          ("index", CWLMap 3 4 [("type", VStr "File")])]
                      /\ line (snd kp)
                         = Some (match lines_of v with
                                 | Ok l => l
                                 | Raise _ => (1, 4)%Z
                                 end))
         [("reads", mkPort None "reads" (Some (1, 4)%Z));
          ("index", mkPort None "index" (Some (3, 4)%Z))].
Proof.
  exact (parse_ports_lines 1 4
           [("reads", VStr "File"); ("index", CWLMap 3 4 [("type", VStr "File")])]
           _ eq_refl).
Defined.




End WorkflowExtras.

(* ===================================================================== *)
(** ** Further properties of the command console                         *)
(* ===================================================================== *)

Module ConsoleExtras.
Import Py Console ConsoleFacts.

Definition typed (line : string) : CommandWidget :=
  mkCommandWidget (mkCommandLine line [""; "help"] 2) "$> help" [].

Lemma command_entered_responds_witness :
  exists response edits,
    command_entered (bare_host None) (typed "frobnicate 'a b'")
    = Ok (mkCommandWidget (mkCommandLine "" [""; "help"] 2)
            (response_received "$> help" "frobnicate 'a b'" response)
            ([] ++ edits))
    /\ match assoc_get "frobnicate" dispatch_table with
       | None => response = "Unknown command: frobnicate"
       | Some e =>
           match returned (run_handler (bare_host None) (call e) ["a b"]) with
           | Ok r => response = r
           | Raise x => response = ("Command error:" ++ nl ++ exn_str x)%string
           end
       end.
Proof.
  exact (command_entered_responds (bare_host None) (typed "frobnicate 'a b'")
           "frobnicate" ["a b"] eq_refl).
Defined.

Definition docker_edit : Edit := mkEdit (3, 3)%Z "requirements:" None.

Definition tool_host : Host :=
  mkHost (Some "CommandLineTool")
         (fun _ _ _ _ => Ok docker_edit)
         (fun _ _ => Raise (OtherError "no platform"))
         (Raise (OtherError "no configuration"))
         (fun _ => false)
         (fun _ => Raise (OtherError "no file"))
         (fun _ => Raise (OtherError "no document"))
         (fun _ _ _ _ => Raise (OtherError "no model")).

Lemma docker_one_argument_witness :
  respond tool_host "docker ubuntu:18.04"
  = Ok ("Added DockerRequirement", [docker_edit]).
Proof.
  exact (docker_one_argument tool_host "docker ubuntu:18.04" "ubuntu:18.04"
           docker_edit eq_refl eq_refl eq_refl).
Defined.

Lemma keyPressEvent_cursor_in_range_witness :
  (0 <= history_n (keyPressEvent (mkCommandLine "" [""; "foo"] 2) Key_Up)
   < len [""; "foo"])%Z.
Proof.
  apply (keyPressEvent_cursor_in_range (mkCommandLine "" [""; "foo"] 2) Key_Up).
  - discriminate.
  - left. reflexivity.
  - cbn. lia.
Defined.

(** *** Dispatch *)

Lemma dispatch_table_names :
  map fst dispatch_table = ["help"; "?"; "h"; "add"; "docker"; "sbpush"].
Proof. reflexivity. Qed.

Lemma assoc_get_absent {V} (k : string) (d : list (string * V)) :
  ~ In k (map fst d) -> assoc_get k d = None.
Proof.
  induction d as [|[k' v] d IH]; cbn; [reflexivity|].
  intros Hn. destruct (String.eqb_spec k' k) as [->|Hne]; [tauto|].
  apply IH. tauto.
Qed.

(** X16. A command line whose first token is none of [help], [?], [h],
    [add], [docker] and [sbpush] is answered with
    "Unknown command: {token}", whatever follows the token and whatever
    the document is, and no edit is proposed. *)
Theorem unknown_command_response host line cmd args :
  shlex_split line = Ok (cmd :: args) ->
  ~ In cmd ["help"; "?"; "h"; "add"; "docker"; "sbpush"] ->
  respond host line = Ok (("Unknown command: " ++ cmd)%string, []).
Proof.
  intros Hsplit Hn. unfold respond. rewrite Hsplit. cbn [bind].
  rewrite assoc_get_absent; [reflexivity|].
  rewrite dispatch_table_names. exact Hn.
Qed.

Lemma unknown_command_response_witness :
  respond (bare_host None) "Docker ubuntu"
  = Ok ("Unknown command: Docker", []).
Proof.
  apply (unknown_command_response (bare_host None) "Docker ubuntu" "Docker"
           ["ubuntu"] eq_refl).
  cbn. intros H. repeat (destruct H as [H|H]; [discriminate H|]). exact H.
Defined.

(** X17. [help], [?] and [h] give the same response, which depends neither
    on the arguments nor on the document, and propose no edit. *)
Theorem help_synonyms_agree host1 host2 line1 line2 cmd1 cmd2 args1 args2 :
  In cmd1 ["help"; "?"; "h"] -> In cmd2 ["help"; "?"; "h"] ->
  shlex_split line1 = Ok (cmd1 :: args1) ->
  shlex_split line2 = Ok (cmd2 :: args2) ->
  respond host1 line1 = respond host2 line2
  /\ exists response, respond host1 line1 = Ok (response, []).
Proof.
  intros H1 H2 Hs1 Hs2. unfold respond. rewrite Hs1, Hs2. cbn [bind].
  cbn in H1, H2.
  destruct H1 as [<-|[<-|[<-|[]]]]; destruct H2 as [<-|[<-|[<-|[]]]];
    (split; [reflexivity | eexists; reflexivity]).
Qed.

Lemma help_synonyms_agree_witness :
  respond (bare_host None) "help" = respond tool_host "? docker"
  /\ exists response, respond (bare_host None) "help" = Ok (response, []).
Proof.
  apply (help_synonyms_agree (bare_host None) tool_host "help" "? docker"
           "help" "?" [] ["docker"]).
  - left. reflexivity.
  - right. left. reflexivity.
  - reflexivity.
  - reflexivity.
Defined.

Lemma only_wf_other (func : Host -> list string -> outcome) self args :
  process_type self <> Some "Workflow" ->
  only_wf func self args = returns "Can only do this on Workflow".
Proof.
  intros Hty. unfold only_wf.
  destruct (process_type self) as [ty|]; [|reflexivity].
  destruct (string_dec ty "Workflow") as [->|Hne]; [congruence|].
  clear -Hne.
  repeat (match goal with
          | |- context [match ?x with _ => _ end] =>
              is_var x; destruct x; try reflexivity
          end);
    exfalso; apply Hne; reflexivity.
Qed.

(** X18. [add] on a document that is not a Workflow is answered with
    "Can only do this on Workflow" whatever its arguments, before any
    argument is counted or any file is looked for, and proposes no
    edit. *)
Theorem add_only_on_workflow host line args :
  shlex_split line = Ok ("add" :: args) ->
  process_type host <> Some "Workflow" ->
  respond host line = Ok ("Can only do this on Workflow", []).
Proof.
  intros Hsplit Hty. unfold respond. rewrite Hsplit. cbn [bind].
  change (assoc_get "add" dispatch_table)
    with (Some (mkEntry []
                  ("add <step_id> [path] : Create scaffold for new inline step, "
                   ++ "or, if path is given new linked step.")
                  add_step_scaffold_handler)).
  cbn [call run_handler]. unfold add_step_scaffold.
  rewrite (only_wf_other _ _ _ Hty). reflexivity.
Qed.

Lemma add_only_on_workflow_witness :
  respond tool_host "add align tools/align.cwl"
  = Ok ("Can only do this on Workflow", []).
Proof.
  apply (add_only_on_workflow tool_host "add align tools/align.cwl"
           ["align"; "tools/align.cwl"] eq_refl).
  discriminate.
Defined.

(** X19. [sbpush] with a message and at most one project id calls the
    remote push with exactly these; a failure of the push, or an answer
    without an [sbg:id], does not leave the console but is reported as
    "Command error:" followed by the fault's text; a successful push is
    reported as "Pushed app to {id}".  No edit is proposed either way. *)
Theorem sbpush_reports_push host line message rest :
  shlex_split line = Ok ("sbpush" :: message :: rest) ->
  (length rest <= 1)%nat ->
  respond host line
  = Ok (match push host message (hd_error rest) with
        | Raise e => "Command error:" ++ nl ++ exn_str e
        | Ok app =>
            match raw_sbg_id app with
            | Some _ => "Pushed app to " ++ app_id app ++ nl
            | None => "Command error:" ++ nl ++ "'sbg:id'"
            end
        end%string, []).
Proof.
  intros Hsplit Hlen. unfold respond. rewrite Hsplit. cbn [bind].
  change (assoc_get "sbpush" dispatch_table)
    with (Some (mkEntry []
                  ("sbpush <message> [project/id]  " ++ nl
                   ++ "Push this app to the platform")
                  sbpush_handler)).
  cbn [call run_handler]. unfold sbpush.
  destruct rest as [|p [|q rest]]; cbn [length] in Hlen; try lia;
    cbn [hd_error];
    (destruct (push host message _) as [app|e]; [|reflexivity];
     destruct (raw_sbg_id app); reflexivity).
Qed.

Definition offline_host : Host :=
  mkHost (Some "Workflow")
         (fun _ _ _ _ => Raise (OtherError "no document"))
         (fun _ _ => Raise (OtherError "Connection refused"))
         (Raise (OtherError "no configuration"))
         (fun _ => false)
         (fun _ => Raise (OtherError "no file"))
         (fun _ => Raise (OtherError "no document"))
         (fun _ _ _ _ => Raise (OtherError "no model")).

Lemma sbpush_reports_push_witness :
  respond offline_host "sbpush 'first version' me/project"
  = Ok (("Command error:" ++ nl ++ "Connection refused")%string, []).
Proof.
  apply (sbpush_reports_push offline_host "sbpush 'first version' me/project"
           "first version" ["me/project"] eq_refl).
  cbn. lia.
Defined.

(** *** History *)

Ltac zcases :=
  repeat match goal with
         | |- context [(?a <? ?b)%Z] =>
             destruct (Z.ltb_spec a b); cbn [andb]
         end.

Lemma show_history_at t h n :
  (0 <= n < len h)%Z ->
  show_history (mkCommandLine t h n)
  = mkCommandLine (nth (Z.to_nat n) h "") h n.
Proof.
  intros Hn. unfold show_history. cbn [history history_n].
  destruct (Z.ltb_spec (-1) n); [|lia].
  destruct (Z.ltb_spec n (len h)); [|lia]. reflexivity.
Qed.

Lemma key_up_at t h n :
  (0 <= n < len h)%Z ->
  keyPressEvent (mkCommandLine t h n) Key_Up
  = let n' := if (n =? 0)%Z then (len h - 1)%Z else (n - 1)%Z in
    mkCommandLine (nth (Z.to_nat n') h "") h n'.
Proof.
  intros Hn. cbv zeta. unfold keyPressEvent. cbn [text history history_n].
  destruct (Z.ltb_spec (n - 1) 0); destruct (Z.eqb_spec n 0); try lia;
    apply show_history_at; lia.
Qed.

Lemma key_down_at t h n :
  (0 <= n < len h)%Z ->
  keyPressEvent (mkCommandLine t h n) Key_Down
  = let n' := if (n =? len h - 1)%Z then 0%Z else (n + 1)%Z in
    mkCommandLine (nth (Z.to_nat n') h "") h n'.
Proof.
  intros Hn. cbv zeta. unfold keyPressEvent. cbn [text history history_n].
  rewrite Z.gtb_ltb.
  destruct (Z.ltb_spec (len h - 1) (n + 1));
    destruct (Z.eqb_spec n (len h - 1)); try lia;
    apply show_history_at; lia.
Qed.

(** X20. With the cursor on an entry of the history, the up key followed
    by the down key, and the down key followed by the up key, bring the
    cursor back to that entry and show it in the field; the history is
    not changed. *)
Theorem navigation_round_trip (self : CommandLine) :
  (0 <= history_n self < len (history self))%Z ->
  let here := mkCommandLine
                (nth (Z.to_nat (history_n self)) (history self) "")
                (history self) (history_n self) in
  keyPressEvent (keyPressEvent self Key_Up) Key_Down = here
  /\ keyPressEvent (keyPressEvent self Key_Down) Key_Up = here.
Proof.
  intros Hn. cbv zeta. destruct self as [t h n].
  cbn [text history history_n] in *.
  rewrite (key_up_at t h n Hn), (key_down_at t h n Hn).
  split.
  - destruct (Z.eqb_spec n 0) as [->|Hne].
    + rewrite key_down_at by lia.
      destruct (Z.eqb_spec (len h - 1) (len h - 1)); [reflexivity | lia].
    + rewrite key_down_at by lia.
      destruct (Z.eqb_spec (n - 1) (len h - 1)); [lia|].
      replace (n - 1 + 1)%Z with n by lia. reflexivity.
  - destruct (Z.eqb_spec n (len h - 1)) as [->|Hne].
    + rewrite key_up_at by lia.
      destruct (Z.eqb_spec 0 0); [reflexivity | lia].
    + rewrite key_up_at by lia.
      destruct (Z.eqb_spec (n + 1) 0); [lia|].
      replace (n + 1 - 1)%Z with n by lia. reflexivity.
Qed.

Lemma navigation_round_trip_witness :
  keyPressEvent (keyPressEvent (mkCommandLine "typed" [""; "foo"; "bar"] 0) Key_Up)
                Key_Down
  = mkCommandLine "" [""; "foo"; "bar"] 0
  /\ keyPressEvent
       (keyPressEvent (mkCommandLine "typed" [""; "foo"; "bar"] 0) Key_Down)
       Key_Up
     = mkCommandLine "" [""; "foo"; "bar"] 0.
Proof.
  apply (navigation_round_trip (mkCommandLine "typed" [""; "foo"; "bar"] 0)).
  cbn. lia.
Defined.

Lemma existsb_eqb_In (x : string) (l : list string) :
  existsb (String.eqb x) l = true <-> In x l.
Proof.
  rewrite existsb_exists. split.
  - intros (y & Hin & Heq). apply String.eqb_eq in Heq. subst. exact Hin.
  - intros Hin. exists x. split; [exact Hin | apply String.eqb_refl].
Qed.

Lemma nth_last_entry (l : list string) (d : string) :
  nth (length l - 1) l d = last l d.
Proof.
  induction l as [|a [|b l] IH]; try reflexivity.
  cbn [length Nat.sub] in *. rewrite Nat.sub_0_r in IH. exact IH.
Qed.

(** X21. Pressing Return in the field records its text: afterwards the
    text is in the history, the entries that were there keep their
    places, a text already recorded is not recorded twice (a history
    without repetition stays so), the cursor stands one past the last
    entry, and the next up key shows the last entry, which is the
    submitted text when that was new. *)
Theorem submission_recorded (self : CommandLine) :
  let self' := CommandLine_command_entered self in
  In (text self) (history self')
  /\ (exists more, history self' = history self ++ more)
  /\ (NoDup (history self) -> NoDup (history self'))
  /\ history_n self' = len (history self')
  /\ text (keyPressEvent self' Key_Up) = last (history self') ""
  /\ (~ In (text self) (history self) ->
      text (keyPressEvent self' Key_Up) = text self).
Proof.
  cbv zeta.
  assert (Hup : forall t h, h <> [] ->
            text (keyPressEvent (mkCommandLine t h (len h)) Key_Up)
            = last h "").
  { intros t h Hne. unfold keyPressEvent, show_history.
    cbn [text history history_n].
    assert (0 < len h)%Z.
    { unfold len. destruct h; [congruence|]. cbn [length]. lia. }
    zcases; try lia; cbn [text history history_n]; zcases; try lia.
    cbn [text]. unfold len.
    replace (Z.to_nat (Z.of_nat (length h) - 1)) with (length h - 1)%nat by lia.
    apply nth_last_entry. }
  unfold CommandLine_command_entered.
  destruct (existsb (String.eqb (text self)) (history self)) eqn:E;
    cbn [text history history_n].
  - apply existsb_eqb_In in E.
    repeat split; auto.
    + exists []. rewrite app_nil_r. reflexivity.
    + apply Hup. intros Hnil. rewrite Hnil in E. exact E.
    + intros Hn. contradiction.
  - assert (Hnotin : ~ In (text self) (history self)).
    { intros Hin. apply existsb_eqb_In in Hin. congruence. }
    repeat split.
    + apply in_or_app. right. left. reflexivity.
    + eexists. reflexivity.
    + intros Hnd. apply NoDup_app; [exact Hnd | repeat constructor; intros [] |].
      intros x Hx [<-|[]]. contradiction.
    + apply Hup. destruct (history self); discriminate.
    + intros _. rewrite Hup; [apply last_last|].
      destruct (history self); discriminate.
Qed.

(** X28. [add] on a Workflow with a step id and at most one path, when
    the scaffold file of the configured template directory does not
    exist: the response is "Couldn't find step scaffold file {path}", and
    no edit is proposed. *)
Theorem add_without_scaffold host line step_id rest sp :
  shlex_split line = Ok ("add" :: step_id :: rest) ->
  (length rest <= 1)%nat ->
  process_type host = Some "Workflow" ->
  scaffold_path host = Ok sp ->
  path_exists host sp = false ->
  respond host line
  = Ok (("Couldn't find step scaffold file " ++ sp)%string, []).
Proof.
  intros Hsplit Hlen Hty Hsp Hex. unfold respond. rewrite Hsplit. cbn [bind].
  change (assoc_get "add" dispatch_table)
    with (Some (mkEntry []
                  ("add <step_id> [path] : Create scaffold for new inline step, "
                   ++ "or, if path is given new linked step.")
                  add_step_scaffold_handler)).
  cbn [call run_handler]. unfold add_step_scaffold, only_wf. rewrite Hty.
  unfold add_step_scaffold_body.
  destruct rest as [|p [|q rest]]; cbn [length] in Hlen; try lia;
    rewrite Hsp, Hex; reflexivity.
Qed.

Definition workflow_host_without_templates : Host :=
  mkHost (Some "Workflow")
         (fun _ _ _ _ => Raise (OtherError "no document"))
         (fun _ _ => Raise (OtherError "no platform"))
         (Ok "/etc/benten/step-template.cwl")
         (fun _ => false)
         (fun _ => Raise (FileNotFoundError "no file"))
         (fun _ => Raise (OtherError "no document"))
         (fun _ _ _ _ => Raise (OtherError "no model")).

Lemma add_without_scaffold_witness :
  respond workflow_host_without_templates "add align"
  = Ok ("Couldn't find step scaffold file /etc/benten/step-template.cwl", []).
Proof.
  apply (add_without_scaffold workflow_host_without_templates "add align"
           "align" [] "/etc/benten/step-template.cwl" eq_refl).
  - cbn. lia.
  - reflexivity.
  - reflexivity.
  - reflexivity.
Defined.

End ConsoleExtras.

(* ===================================================================== *)
(** ** Further properties of the tabbed shell                            *)
(* ===================================================================== *)

Module MainWidgetExtras.
Import Py WorkflowModel MainWidget MainWidgetFacts.

(** X22. After [open_document] the current tab is the last one; it hosts
    the view widget the document manager returned for the requested
    (path, inline path), and it is titled by the dot-joined inline path,
    or "root" when the inline path is absent or empty, with the tool tip
    "{path}#{title}". *)
Theorem open_document_focus (s : BentenMainWidget) (parent_path : string)
    (inline_path : option (list string)) :
  let s' := open_document s parent_path inline_path in
  let title := match inline_path with
               | None | Some [] => "root"
               | Some p => str_join "." p
               end in
  currentIndex s' = (Z.of_nat (count s') - 1)%Z
  /\ exists t,
      nth_error (tabs s') (Z.to_nat (currentIndex s')) = Some t
      /\ page t = fst (open_window (multi_document_manager s)
                                   parent_path inline_path)
      /\ label t = title
      /\ tool_tip t = (parent_path ++ "#" ++ title)%string.
Proof.
  cbv zeta. rewrite open_document_shape. cbv zeta.
  unfold count. cbn [tabs currentIndex]. rewrite length_app. cbn [length].
  split; [lia|].
  eexists. rewrite Nat2Z.id, nth_error_app2 by lia.
  rewrite Nat.sub_diag. cbn [nth_error].
  split; [reflexivity|]. cbn [page label tool_tip]. repeat split.
Qed.

(** X23. [open_document] leaves the tabs of the other views as they
    were, in their order, and puts the tab of the requested view after
    them; the close buttons of that tab are hidden exactly when it is the
    only tab after the call. *)
Theorem open_document_base_tab (s : BentenMainWidget) (parent_path : string)
    (inline_path : option (list string)) :
  let s' := open_document s parent_path inline_path in
  let bw := fst (open_window (multi_document_manager s) parent_path
                             inline_path) in
  exists t,
    tabs s' = remove_page bw (tabs s) ++ [t]
    /\ page t = bw
    /\ close_buttons t = negb (Nat.eqb (count s') 1).
Proof.
  cbv zeta. rewrite open_document_shape. cbv zeta.
  unfold count. cbn [tabs]. eexists. split; [reflexivity|].
  cbn [page close_buttons]. split; [reflexivity|].
  rewrite length_app. cbn [length].
  destruct (length (remove_page _ (tabs s))) as [|k]; [reflexivity|].
  replace (S k + 1)%nat with (S (S k)) by lia. reflexivity.
Qed.





End MainWidgetExtras.
